(** * zkevm-bridge-ui: the transaction form

    A shallow embedding of [TransactionForm]
    (src/views/home/components/transaction-form) and of the parts of
    [src/constants.ts] it relies on, together with the properties of the
    form's state machine.

    The React component is modelled as explicit state passing:
    - every [useState] cell is a field of [FormState]; a setter is a
      function [FormState -> FormState];
    - the props and contexts, the promises that are still pending, and the
      calls made to the outside ([onSubmit], [openSnackbar]) live in a
      [World];
    - an event handler or a promise callback is one [step] of the world,
      followed by the [useEffect]s whose dependencies changed. *)

From Stdlib Require Import ZArith List String Bool Lia.
Import ListNotations.

Local Open Scope string_scope.
Local Open Scope Z_scope.
Local Open Scope list_scope.

(** ** ethers' BigNumber

    An arbitrary-precision signed integer.  A [BigNumber] is an object, so
    as a JavaScript condition it is always truthy, zero included. *)

Definition BigNumber := Z.

Definition isZero (n : BigNumber) : bool := n =? 0.

(** ** src/domain, as far as the form uses it *)

Inductive ChainIcon := EthChainIcon | PolygonHermezChainIcon.

(** [provider] is the JSON-RPC provider of the chain, identified by the
    URL it was built from. *)
Record Chain := {
  key : string;
  networkId : Z;
  Icon : ChainIcon;
  provider : string;
}.

Record Token := {
  name : string;
  address : string;
  symbol : string;
  decimals : Z;
  logoURI : string;
}.

Module TransactionData.
Record t := {
  token : Token;
  from : Chain;
  to : Chain;
  amount : BigNumber;
  estimatedFee : BigNumber;
}.
End TransactionData.

(** The environment context.  [chains] is the pair built by [getChains],
    whose declared type is [[Chain, Chain]]; [tokens.ETH] is the only
    entry of the token registry the form reads. *)
Module Env.
Record t := {
  chains : Chain * Chain;
  tokens_ETH : Token;
}.

(** [env.chains] as the array it is at run time. *)
Definition chainList (env : t) : list Chain :=
  [fst (chains env); snd (chains env)].
End Env.

(** ** src/constants.ts *)

Module Constants.

Definition AddressZero : string :=
  "0x0000000000000000000000000000000000000000".

Definition ETH_TOKEN : Token := {|
  name := "Ether";
  address := AddressZero;
  symbol := "ETH";
  decimals := 18;
  logoURI :=
    "https://raw.githubusercontent.com/Uniswap/interface/main/src/assets/images/ethereum-logo.png";
|}.

Definition getChains (ethereumRpcUrl polygonHermezRpcUrl : string)
    (polygonHermezNetworkId : Z) : Chain * Chain :=
  ({| key := "ethereum";
      networkId := 0;
      Icon := EthChainIcon;
      provider := ethereumRpcUrl |},
   {| key := "polygon-hermez";
      networkId := polygonHermezNetworkId;
      Icon := PolygonHermezChainIcon;
      provider := polygonHermezRpcUrl |}).

Definition getUsdtToken (address : string) : Token := {|
  name := "Tether USD";
  address := address;
  symbol := "USDT";
  decimals := 6;
  logoURI :=
    "https://raw.githubusercontent.com/trustwallet/assets/master/blockchains/ethereum/assets/0xdAC17F958D2ee523a2206206994597C13D831ec7/logo.png";
|}.

End Constants.

(** ** AsyncTask<T, E>

    The tagged union the form instantiates as
    [AsyncTask<BigNumber, string>]. *)

Inductive AsyncTask (T E : Type) : Type :=
| Pending
| Successful (data : T)
| Failed (error : E).

Arguments Pending {T E}.
Arguments Successful {T E} data.
Arguments Failed {T E} error.

Inductive Status := pending | successful | failed.

Definition status {T E} (task : AsyncTask T E) : Status :=
  match task with
  | Pending => pending
  | Successful _ => successful
  | Failed _ => failed
  end.

(** ** The state of the form *)

Record FormChains := {
  from : Chain;
  to : Chain;
}.

(** The function [onChainFromButtonClick] of one render.  The function
    is created anew at every render and reads the [env] and the [chains]
    of the render that created it; the setters it calls are the same at
    every render.  It is represented by the two values it captured. *)
Record ClickHandler := {
  capturedEnv : option Env.t;
  capturedChains : option FormChains;
}.

(** The picker the form opens (the source's type [List]).  [onClick] is
    the handler of the render in which the picker was opened: it stays
    the one stored, whatever is rendered afterwards. *)
Inductive ListType := chain_list | token_list.

Record ListState := {
  type : ListType;
  items : list Chain;
  onClick : ClickHandler;
}.

(** One field per [useState] cell, in the order of the source.  The cell
    [list] is called [list_] here, [list] being the type of lists.
    [chainsRef] stands for the identity of the object held in [chains]:
    [setChains] is only ever called with a fresh object literal, and React
    compares effect dependencies by identity. *)
Record FormState := {
  list_ : option ListState;
  balanceFrom : option BigNumber;
  balanceTo : option BigNumber;
  inputError : option string;
  chains : option FormChains;
  chainsRef : nat;
  token : option Token;
  amount : option BigNumber;
  estimatedFee : AsyncTask BigNumber string;
}.

Definition initialState : FormState := {|
  list_ := None;
  balanceFrom := None;
  balanceTo := None;
  inputError := None;
  chains := None;
  chainsRef := 0%nat;
  token := None;
  amount := None;
  estimatedFee := Pending;
|}.

Definition setList (v : option ListState) (s : FormState) : FormState :=
  {| list_ := v; balanceFrom := balanceFrom s; balanceTo := balanceTo s;
     inputError := inputError s; chains := chains s; chainsRef := chainsRef s;
     token := token s; amount := amount s; estimatedFee := estimatedFee s |}.

Definition setBalanceFrom (v : option BigNumber) (s : FormState) : FormState :=
  {| list_ := list_ s; balanceFrom := v; balanceTo := balanceTo s;
     inputError := inputError s; chains := chains s; chainsRef := chainsRef s;
     token := token s; amount := amount s; estimatedFee := estimatedFee s |}.

Definition setBalanceTo (v : option BigNumber) (s : FormState) : FormState :=
  {| list_ := list_ s; balanceFrom := balanceFrom s; balanceTo := v;
     inputError := inputError s; chains := chains s; chainsRef := chainsRef s;
     token := token s; amount := amount s; estimatedFee := estimatedFee s |}.

Definition setInputError (v : option string) (s : FormState) : FormState :=
  {| list_ := list_ s; balanceFrom := balanceFrom s; balanceTo := balanceTo s;
     inputError := v; chains := chains s; chainsRef := chainsRef s;
     token := token s; amount := amount s; estimatedFee := estimatedFee s |}.

Definition setChains (v : FormChains) (s : FormState) : FormState :=
  {| list_ := list_ s; balanceFrom := balanceFrom s; balanceTo := balanceTo s;
     inputError := inputError s; chains := Some v; chainsRef := S (chainsRef s);
     token := token s; amount := amount s; estimatedFee := estimatedFee s |}.

Definition setToken (v : option Token) (s : FormState) : FormState :=
  {| list_ := list_ s; balanceFrom := balanceFrom s; balanceTo := balanceTo s;
     inputError := inputError s; chains := chains s; chainsRef := chainsRef s;
     token := v; amount := amount s; estimatedFee := estimatedFee s |}.

Definition setAmount (v : option BigNumber) (s : FormState) : FormState :=
  {| list_ := list_ s; balanceFrom := balanceFrom s; balanceTo := balanceTo s;
     inputError := inputError s; chains := chains s; chainsRef := chainsRef s;
     token := token s; amount := v; estimatedFee := estimatedFee s |}.

Definition setEstimatedFee (v : AsyncTask BigNumber string) (s : FormState)
    : FormState :=
  {| list_ := list_ s; balanceFrom := balanceFrom s; balanceTo := balanceTo s;
     inputError := inputError s; chains := chains s; chainsRef := chainsRef s;
     token := token s; amount := amount s; estimatedFee := v |}.

(** ** The event handlers *)

(** [chain.key !== from.key] *)
Definition keyDiffers (from chain : Chain) : bool :=
  negb (String.eqb (key chain) (key from)).

(** [env] and [chains] are those of the render the function belongs to;
    [s] is the state the setters act on when the function is called. *)
Definition onChainFromButtonClick (env : option Env.t)
    (chains : option FormChains) (from : Chain) (s : FormState)
    : FormState :=
  match env, chains with
  | Some env, Some _ =>
      match find (keyDiffers from) (Env.chainList env) with
      | Some to =>
          setAmount None
            (setList None (setChains {| from := from; to := to |} s))
      | None => s
      end
  | _, _ => s
  end.

(** Calling a stored handler. *)
Definition callOnClick (h : ClickHandler) (from : Chain) (s : FormState)
    : FormState :=
  onChainFromButtonClick (capturedEnv h) (capturedChains h) from s.

Definition onInputChange (amount : option BigNumber) (error : option string)
    (s : FormState) : FormState :=
  setInputError error (setAmount amount s).

(** The argument [onSubmit] is called with, when it is called. *)
Definition onFormSubmit (s : FormState) : option TransactionData.t :=
  match chains s, token s, amount s, estimatedFee s with
  | Some chains, Some token, Some amount, Successful data =>
      Some {| TransactionData.token := token;
              TransactionData.from := from chains;
              TransactionData.to := to chains;
              TransactionData.amount := amount;
              TransactionData.estimatedFee := data |}
  | _, _, _, _ => None
  end.

(** ** What is rendered *)

(** The [disabled] attribute of the submit button:
    [!amount || amount.isZero() || inputError !== undefined ||
     estimatedFee.status === "failed"]. *)
Definition submitDisabled (s : FormState) : bool :=
  match amount s with
  | None => true
  | Some amount =>
      isZero amount
      || match inputError s with Some _ => true | None => false end
      || match status (estimatedFee s) with failed => true | _ => false end
  end.

(** A string as a JavaScript condition. *)
Definition truthy (text : string) : bool :=
  negb (String.eqb text "").

(** The [Error] elements under the button, in order. *)
Definition shownErrors (s : FormState) : list string :=
  (match amount s, inputError s, estimatedFee s with
   | Some _, Some error, (Pending | Successful _) =>
       if truthy error then [error] else []
   | _, _, _ => []
   end)
  ++
  (match estimatedFee s with
   | Failed error => [error]
   | _ => []
   end).

Record View := {
  disabled : bool;
  errors : list string;
  listOpen : bool;
}.

(** The component renders nothing until [env], [chains] and [token] are
    there. *)
Definition render (env : option Env.t) (s : FormState) : option View :=
  match env, chains s, token s with
  | Some _, Some _, Some _ =>
      Some {| disabled := submitDisabled s;
              errors := shownErrors s;
              listOpen := match list_ s with Some _ => true | None => false end |}
  | _, _, _ => None
  end.

(** ** Equality tests used for the dependency arrays *)

Definition Token_eqb (a b : Token) : bool :=
  String.eqb (name a) (name b)
  && String.eqb (address a) (address b)
  && String.eqb (symbol a) (symbol b)
  && (decimals a =? decimals b)
  && String.eqb (logoURI a) (logoURI b).

Definition optionToken_eqb (a b : option Token) : bool :=
  match a, b with
  | Some a, Some b => Token_eqb a b
  | None, None => true
  | _, _ => false
  end.

(** ** The world around the form

    [Rejection] is the type of the values a promise may be rejected with
    ([unknown] in the source).  [isEthersInsufficientFundsError] comes from
    src/utils/types and is taken as given: the form only calls it. *)

Section TransactionForm.

Variable Rejection : Type.
Variable isEthersInsufficientFundsError : Rejection -> bool.

(** The asynchronous calls of the form.  Each constructor stands for the
    promise chain the source builds on the call, named after the call. *)
Inductive Request :=
| GetBalanceFrom (chain : Chain) (account : string)
    (* chains.from.provider.getBalance(account).then(setBalanceFrom) *)
| GetBalanceTo (chain : Chain) (account : string)
    (* chains.to.provider.getBalance(account).then(setBalanceTo) *)
| EstimateBridgeGasPrice (from to : Chain) (token : Token)
    (destinationAddress : string)
    (* estimateBridgeGasPrice({...}).then(...).catch(...) *)
| ParseError (error : Rejection).
    (* parseError(error).then(...) *)

(** The argument of [openSnackbar]. *)
Record Message := {
  msgType : string;
  text : string;
}.

(** [inflight] lists the pending promises, newest first, each under the
    number it was given when it was created.  [snackbar] and [submitted]
    record the calls to [openSnackbar] and [onSubmit], oldest first;
    [unhandled] records the rejections that reached the end of a promise
    chain without meeting a rejection handler. *)
Record World := {
  env : option Env.t;
  transaction : option TransactionData.t;
  account : string;
  form : FormState;
  nextId : nat;
  inflight : list (nat * Request);
  snackbar : list Message;
  submitted : list TransactionData.t;
  unhandled : list Rejection;
}.

Definition withForm (f : FormState -> FormState) (w : World) : World :=
  {| env := env w; transaction := transaction w; account := account w;
     form := f (form w); nextId := nextId w; inflight := inflight w;
     snackbar := snackbar w; submitted := submitted w;
     unhandled := unhandled w |}.

Definition withEnv (v : option Env.t) (w : World) : World :=
  {| env := v; transaction := transaction w; account := account w;
     form := form w; nextId := nextId w; inflight := inflight w;
     snackbar := snackbar w; submitted := submitted w;
     unhandled := unhandled w |}.

Definition withTransaction (v : option TransactionData.t) (w : World) : World :=
  {| env := env w; transaction := v; account := account w;
     form := form w; nextId := nextId w; inflight := inflight w;
     snackbar := snackbar w; submitted := submitted w;
     unhandled := unhandled w |}.

Definition withAccount (v : string) (w : World) : World :=
  {| env := env w; transaction := transaction w; account := v;
     form := form w; nextId := nextId w; inflight := inflight w;
     snackbar := snackbar w; submitted := submitted w;
     unhandled := unhandled w |}.

(** Starting an asynchronous call. *)
Definition dispatch (r : Request) (w : World) : World :=
  {| env := env w; transaction := transaction w; account := account w;
     form := form w; nextId := S (nextId w);
     inflight := (nextId w, r) :: inflight w;
     snackbar := snackbar w; submitted := submitted w;
     unhandled := unhandled w |}.

Definition lookup (id : nat) (l : list (nat * Request)) : option Request :=
  option_map snd (find (fun p => Nat.eqb (fst p) id) l).

(** A promise settles once: it leaves [inflight] when it does. *)
Definition settled (id : nat) (w : World) : World :=
  {| env := env w; transaction := transaction w; account := account w;
     form := form w; nextId := nextId w;
     inflight := filter (fun p => negb (Nat.eqb (fst p) id)) (inflight w);
     snackbar := snackbar w; submitted := submitted w;
     unhandled := unhandled w |}.

Definition openSnackbar (m : Message) (w : World) : World :=
  {| env := env w; transaction := transaction w; account := account w;
     form := form w; nextId := nextId w; inflight := inflight w;
     snackbar := snackbar w ++ [m]; submitted := submitted w;
     unhandled := unhandled w |}.

Definition onSubmit (t : TransactionData.t) (w : World) : World :=
  {| env := env w; transaction := transaction w; account := account w;
     form := form w; nextId := nextId w; inflight := inflight w;
     snackbar := snackbar w; submitted := submitted w ++ [t];
     unhandled := unhandled w |}.

Definition unhandledRejection (e : Rejection) (w : World) : World :=
  {| env := env w; transaction := transaction w; account := account w;
     form := form w; nextId := nextId w; inflight := inflight w;
     snackbar := snackbar w; submitted := submitted w;
     unhandled := unhandled w ++ [e] |}.

(** ** The effects *)

(** [useEffect(..., [env, transaction])] *)
Definition initEffect (w : World) : World :=
  match transaction w with
  | Some transaction =>
      withForm (fun s =>
        setAmount (Some (TransactionData.amount transaction))
          (setToken (Some (TransactionData.token transaction))
            (setChains {| from := TransactionData.from transaction;
                          to := TransactionData.to transaction |} s))) w
  | None =>
      match env w with
      | Some env =>
          withForm (fun s =>
            setToken (Some (Env.tokens_ETH env))
              (setChains {| from := fst (Env.chains env);
                            to := snd (Env.chains env) |} s)) w
      | None => w
      end
  end.

(** [useEffect(..., [chains, account])] *)
Definition balanceEffect (w : World) : World :=
  match chains (form w) with
  | Some chains =>
      dispatch (GetBalanceTo (to chains) (account w))
        (dispatch (GetBalanceFrom (from chains) (account w)) w)
  | None => w
  end.

(** [useEffect(..., [account, chains, token, estimateBridgeGasPrice,
    openSnackbar])]: the body up to the call; the callbacks are in
    [onEstimateSettled]. *)
Definition feeEffect (w : World) : World :=
  match chains (form w), token (form w) with
  | Some chains, Some token =>
      dispatch
        (EstimateBridgeGasPrice (from chains) (to chains) token (account w)) w
  | _, _ => w
  end.

(** The effects that follow a render: [old] is the world at the previous
    render, [new] the one just rendered.  The two context functions in the
    last dependency array are taken to be stable. *)
Definition balanceDepsChanged (old new : World) : bool :=
  negb (Nat.eqb (chainsRef (form old)) (chainsRef (form new)))
  || negb (String.eqb (account old) (account new)).

Definition feeDepsChanged (old new : World) : bool :=
  negb (String.eqb (account old) (account new))
  || negb (Nat.eqb (chainsRef (form old)) (chainsRef (form new)))
  || negb (optionToken_eqb (token (form old)) (token (form new))).

Definition runEffects (old new : World) : World :=
  let w1 := if balanceDepsChanged old new then balanceEffect new else new in
  if feeDepsChanged old new then feeEffect w1 else w1.

(** ** The promise callbacks *)

Definition onGetBalanceSettled (id : nat) (r : BigNumber + Rejection)
    (w : World) : World :=
  match lookup id (inflight w) with
  | Some (GetBalanceFrom _ _) =>
      match r with
      | inl balance => withForm (setBalanceFrom (Some balance)) (settled id w)
      | inr error => unhandledRejection error (settled id w)
      end
  | Some (GetBalanceTo _ _) =>
      match r with
      | inl balance => withForm (setBalanceTo (Some balance)) (settled id w)
      | inr error => unhandledRejection error (settled id w)
      end
  | _ => w
  end.

Definition insufficientFundsMessage : string :=
  "You don't have enough ETH to pay for the fees".

Definition onEstimateSettled (id : nat) (r : BigNumber + Rejection)
    (w : World) : World :=
  match lookup id (inflight w) with
  | Some (EstimateBridgeGasPrice _ _ _ _) =>
      match r with
      | inl estimatedFee =>
          withForm (setEstimatedFee (Successful estimatedFee)) (settled id w)
      | inr error =>
          if isEthersInsufficientFundsError error then
            withForm (setEstimatedFee (Failed insufficientFundsMessage))
              (settled id w)
          else
            dispatch (ParseError error) (settled id w)
      end
  | _ => w
  end.

Definition onParseErrorSettled (id : nat) (r : string + Rejection)
    (w : World) : World :=
  match lookup id (inflight w) with
  | Some (ParseError _) =>
      match r with
      | inl errorMessage =>
          openSnackbar {| msgType := "error-msg"; text := errorMessage |}
            (settled id w)
      | inr error => unhandledRejection error (settled id w)
      end
  | _ => w
  end.

(** ** One step of the form *)

Inductive Event :=
| ChainSelectorClick
    (* the "From" button: opens the chain picker *)
| ListClose
| ChainFromButtonClick (from : Chain)
    (* the picker calls the handler it was given, list.onClick(from) *)
| InputChange (amount : option BigNumber) (error : option string)
| FormSubmit
    (* the submit event of the form, reaching onFormSubmit; a browser
       delivers it only while the submit button is enabled, which a
       property that needs it takes as a hypothesis *)
| AccountChanged (account : string)
| EnvChanged (env : option Env.t)
    (* the context provides another env object *)
| TransactionChanged (transaction : option TransactionData.t)
    (* the parent passes another transaction object *)
| GetBalanceSettled (id : nat) (r : BigNumber + Rejection)
| EstimateSettled (id : nat) (r : BigNumber + Rejection)
| ParseErrorSettled (id : nat) (r : string + Rejection).

(** The click on a chain of the picker.  The [List] element exists
    while the form is rendered and the cell [list] is set, and it calls
    the handler stored in that cell: the one of the render in which the
    picker was opened, not the one of the current render. *)
Definition listOnClick (w : World) (from : Chain) : World :=
  match render (env w) (form w), list_ (form w) with
  | Some _, Some list => withForm (callOnClick (onClick list) from) w
  | _, _ => w
  end.

(** What the event itself does, before the effects. *)
Definition handle (w : World) (e : Event) : World :=
  match e with
  | ChainSelectorClick =>
      match render (env w) (form w), env w with
      | Some _, Some env =>
          withForm
            (setList
               (Some {| type := chain_list;
                        items := Env.chainList env;
                        onClick := {| capturedEnv := Some env;
                                      capturedChains := chains (form w) |} |}))
            w
      | _, _ => w
      end
  | ListClose => withForm (setList None) w
  | ChainFromButtonClick from => listOnClick w from
  | InputChange amount error => withForm (onInputChange amount error) w
  | FormSubmit =>
      match onFormSubmit (form w) with
      | Some t => onSubmit t w
      | None => w
      end
  | AccountChanged account => withAccount account w
  | EnvChanged env => initEffect (withEnv env w)
  | TransactionChanged transaction =>
      initEffect (withTransaction transaction w)
  | GetBalanceSettled id r => onGetBalanceSettled id r w
  | EstimateSettled id r => onEstimateSettled id r w
  | ParseErrorSettled id r => onParseErrorSettled id r w
  end.

Definition step (w : World) (e : Event) : World :=
  runEffects w (handle w e).

Definition run (w : World) (es : list Event) : World :=
  fold_left step es w.

(** The worlds visited by [run], the starting one left out. *)
Fixpoint trace (w : World) (es : list Event) : list World :=
  match es with
  | [] => []
  | e :: es => step w e :: trace (step w e) es
  end.

(** Mounting the component: the first render, its effects, and the
    effects of the render these cause. *)
Definition unmounted (env : option Env.t)
    (transaction : option TransactionData.t) (account : string) : World :=
  {| env := env; transaction := transaction; account := account;
     form := initialState; nextId := 0%nat; inflight := [];
     snackbar := []; submitted := []; unhandled := [] |}.

Definition mount (env : option Env.t)
    (transaction : option TransactionData.t) (account : string) : World :=
  let w := unmounted env transaction account in
  runEffects w (initEffect w).

End TransactionForm.

Arguments GetBalanceFrom {Rejection} chain account.
Arguments GetBalanceTo {Rejection} chain account.
Arguments EstimateBridgeGasPrice {Rejection} from to token destinationAddress.
Arguments ParseError {Rejection} error.
Arguments env {Rejection} w : rename.
Arguments transaction {Rejection} w : rename.
Arguments account {Rejection} w : rename.
Arguments form {Rejection} w : rename.
Arguments nextId {Rejection} w : rename.
Arguments inflight {Rejection} w : rename.
Arguments snackbar {Rejection} w : rename.
Arguments submitted {Rejection} w : rename.
Arguments unhandled {Rejection} w : rename.
Arguments withForm {Rejection} f w.
Arguments withEnv {Rejection} v w.
Arguments withTransaction {Rejection} v w.
Arguments withAccount {Rejection} v w.
Arguments dispatch {Rejection} r w.
Arguments lookup {Rejection} id l.
Arguments settled {Rejection} id w.
Arguments openSnackbar {Rejection} m w.
Arguments onSubmit {Rejection} t w.
Arguments unhandledRejection {Rejection} e w.
Arguments initEffect {Rejection} w.
Arguments balanceEffect {Rejection} w.
Arguments feeEffect {Rejection} w.
Arguments balanceDepsChanged {Rejection} old new.
Arguments feeDepsChanged {Rejection} old new.
Arguments runEffects {Rejection} old new.
Arguments onGetBalanceSettled {Rejection} id r w.
Arguments onEstimateSettled {Rejection} isEthersInsufficientFundsError id r w.
Arguments onParseErrorSettled {Rejection} id r w.
Arguments ChainSelectorClick {Rejection}.
Arguments ListClose {Rejection}.
Arguments ChainFromButtonClick {Rejection} from.
Arguments InputChange {Rejection} amount error.
Arguments FormSubmit {Rejection}.
Arguments AccountChanged {Rejection} account.
Arguments EnvChanged {Rejection} env.
Arguments TransactionChanged {Rejection} transaction.
Arguments GetBalanceSettled {Rejection} id r.
Arguments EstimateSettled {Rejection} id r.
Arguments ParseErrorSettled {Rejection} id r.
Arguments listOnClick {Rejection} w from : simpl never.
Arguments handle {Rejection} isEthersInsufficientFundsError w e.
Arguments step {Rejection} isEthersInsufficientFundsError w e.
Arguments run {Rejection} isEthersInsufficientFundsError w es.
Arguments trace {Rejection} isEthersInsufficientFundsError w es.
Arguments unmounted {Rejection} env transaction account.
Arguments mount {Rejection} env transaction account.

(** ** A concrete deployment, for the examples

    Rejections are strings; the insufficient-funds kind is the one that
    carries ethers' error code. *)

Module Example.

Definition Rejection := string.

Definition isInsufficientFunds (e : Rejection) : bool :=
  String.eqb e "INSUFFICIENT_FUNDS".

Definition configured : Chain * Chain :=
  Constants.getChains "http://localhost:8545" "http://localhost:8123" 1.

Definition ethereum : Chain := fst configured.
Definition polygonHermez : Chain := snd configured.

Definition env : Env.t :=
  {| Env.chains := configured; Env.tokens_ETH := Constants.ETH_TOKEN |}.

Definition alice : string := "0xA11CE".
Definition bob : string := "0xB0B".

(** The form right after it is mounted without a prior transaction:
    requests 0 and 1 fetch the two balances, request 2 estimates the
    fee. *)
Definition mounted : World Rejection := mount (Some env) None alice.

Definition step := step isInsufficientFunds.
Definition run := run isInsufficientFunds.

(** An environment whose two chains carry the same key. *)
Definition degenerateEnv : Env.t :=
  {| Env.chains := (ethereum, ethereum);
     Env.tokens_ETH := Constants.ETH_TOKEN |}.

End Example.

(** ** Notions the properties are stated with *)

(** The submit gate in the words of the specification: enabled when the
    amount is set and greater than zero, [inputError] is unset and the fee
    estimate is successful. *)
Definition specSubmitEnabled (s : FormState) : bool :=
  match amount s with Some a => 0 <? a | None => false end
  && match inputError s with None => true | Some _ => false end
  && match estimatedFee s with Successful _ => true | _ => false end.

(** Amounts are unsigned in the data model; [BigNumber] itself is not. *)
Definition unsignedAmount (s : FormState) : Prop :=
  forall a, amount s = Some a -> 0 <= a.

(** A chain pair is selected and its two chains differ. *)
Definition distinctChains (s : FormState) : Prop :=
  exists c, chains s = Some c /\ key (from c) <> key (to c).

(** The events by which the parent replaces [env] or [transaction]; the
    form then starts over from what it is given. *)
Definition replacesProps {Rejection} (e : Event Rejection) : bool :=
  match e with
  | EnvChanged _ | TransactionChanged _ => true
  | _ => false
  end.

(** The form is rendered and its picker is open, having been opened in
    a render whose environment was [e]: the handler the picker holds
    reads [e], whatever the environment is now. *)
Definition pickerOpenedWith {Rejection} (e : Env.t) (w : World Rejection)
    : Prop :=
  render (env w) (form w) <> None
  /\ exists list,
       list_ (form w) = Some list
       /\ capturedEnv (onClick list) = Some e
       /\ capturedChains (onClick list) <> None.

(** The message the specification quotes for the insufficient-funds
    failure. *)
Definition specInsufficientFundsMessage : string :=
  "insufficient balance to cover fees".

(** ** Notions for the pending promises and the traces *)

(** The promise whose callback the event is. *)
Definition settles {Rejection} (e : Event Rejection) : option nat :=
  match e with
  | GetBalanceSettled id _ | EstimateSettled id _ | ParseErrorSettled id _ =>
      Some id
  | _ => None
  end.

(** Every pending promise was numbered before [nextId]. *)
Definition fresh {Rejection} (w : World Rejection) : Prop :=
  Forall (fun p => (fst p < nextId w)%nat) (inflight w).

Definition isParseError {Rejection} (r : Request Rejection) : bool :=
  match r with
  | ParseError _ => true
  | _ => false
  end.

(** The calls of the error parser that have not answered yet. *)
Definition pendingParses {Rejection} (w : World Rejection) : nat :=
  List.length (filter (fun p => isParseError (snd p)) (inflight w)).

(** The estimation failures of another kind than insufficient funds
    among the events. *)
Definition isGenericFailure {Rejection}
    (isEthersInsufficientFundsError : Rejection -> bool)
    (e : Event Rejection) : bool :=
  match e with
  | EstimateSettled _ (inr error) =>
      negb (isEthersInsufficientFundsError error)
  | _ => false
  end.

Definition genericFailures {Rejection}
    (isEthersInsufficientFundsError : Rejection -> bool)
    (es : list (Event Rejection)) : nat :=
  List.length (filter (isGenericFailure isEthersInsufficientFundsError) es).

Definition isEstimateSettled {Rejection} (e : Event Rejection) : bool :=
  match e with
  | EstimateSettled _ _ => true
  | _ => false
  end.

(** The fees the events deliver: those of the estimations that
    complete successfully. *)
Definition settledFees {Rejection} (es : list (Event Rejection))
    : list BigNumber :=
  flat_map (fun e => match e with
                     | EstimateSettled _ (inl fee) => [fee]
                     | _ => []
                     end) es.

(** ** src/views/transaction-details/transaction-details.view.tsx

    The view looks a transaction up in [demoData] and derives what it
    shows from its status.  [demoData] and the type of its entries are not
    part of the sources at hand: the entries are taken as given, with
    [idToString] for [demo.id.toString()] and [status] for [demo.status].
    The amounts, fees and dates the view prints are left out. *)

Module TransactionDetails.

Section View.

Variable Demo : Type.
Variable idToString : Demo -> string.
Variable status : Demo -> string.
Variable demoData : list Demo.

(** The argument of [Navigate]. *)
Record NavigateProps := {
  to : string;
  replace : bool;
}.

(** The "Finalise" button and the spinner inside it. *)
Record FinaliseButton := {
  disabled : bool;
  spinner : bool;
}.

Record View := {
  timeLabel : string;
  estimatingTime : bool;
  finalise : option FinaliseButton;
}.

(** [demoData.find((demo) => demo.id.toString() === transactionId)];
    [transactionId] is undefined when the route has no such parameter. *)
Definition findData (transactionId : option string) : option Demo :=
  find (fun demo =>
          match transactionId with
          | Some id => String.eqb (idToString demo) id
          | None => false
          end) demoData.

(** What the component renders, and the navigation it asks for. *)
Definition render (transactionId : option string)
    : option NavigateProps * option View :=
  match findData transactionId with
  | None => (Some {| to := "/activity"; replace := true |}, None)
  | Some data =>
      let initiated := String.eqb (status data) "initiated" in
      (None,
       Some {| timeLabel :=
                 if initiated then "Confirmation expected in" else "Date";
               estimatingTime := initiated;
               finalise :=
                 if initiated || String.eqb (status data) "on-hold"
                 then Some {| disabled := initiated; spinner := initiated |}
                 else None |})
  end.

End View.

End TransactionDetails.

(** * Properties *)

Section Properties.

Variable Rejection : Type.
Variable isEthersInsufficientFundsError : Rejection -> bool.

Local Abbreviation World := (World Rejection).
Local Abbreviation Event := (Event Rejection).
Local Abbreviation step := (step isEthersInsufficientFundsError).
Local Abbreviation handle := (handle isEthersInsufficientFundsError).
Local Abbreviation trace := (trace isEthersInsufficientFundsError).

(** ** Effects only start requests *)

Lemma Token_eqb_refl (t : Token) : Token_eqb t t = true.
Proof.
  unfold Token_eqb.
  now rewrite !String.eqb_refl, Z.eqb_refl.
Qed.

Lemma optionToken_eqb_refl (t : option Token) : optionToken_eqb t t = true.
Proof. destruct t as [t|]; [apply Token_eqb_refl | reflexivity]. Qed.

Lemma balanceEffect_form (w : World) : form (balanceEffect w) = form w.
Proof. unfold balanceEffect. now destruct (chains (form w)). Qed.

Lemma feeEffect_form (w : World) : form (feeEffect w) = form w.
Proof.
  unfold feeEffect. now destruct (chains (form w)), (token (form w)).
Qed.

Lemma runEffects_form (old new : World) :
  form (runEffects old new) = form new.
Proof.
  unfold runEffects.
  destruct (balanceDepsChanged old new), (feeDepsChanged old new);
    now rewrite ?feeEffect_form, ?balanceEffect_form.
Qed.

Lemma balanceEffect_outside (w : World) :
  account (balanceEffect w) = account w
  /\ snackbar (balanceEffect w) = snackbar w
  /\ submitted (balanceEffect w) = submitted w
  /\ unhandled (balanceEffect w) = unhandled w.
Proof. unfold balanceEffect. now destruct (chains (form w)). Qed.

Lemma feeEffect_outside (w : World) :
  account (feeEffect w) = account w
  /\ snackbar (feeEffect w) = snackbar w
  /\ submitted (feeEffect w) = submitted w
  /\ unhandled (feeEffect w) = unhandled w.
Proof.
  unfold feeEffect. now destruct (chains (form w)), (token (form w)).
Qed.

Lemma runEffects_outside (old new : World) :
  account (runEffects old new) = account new
  /\ snackbar (runEffects old new) = snackbar new
  /\ submitted (runEffects old new) = submitted new
  /\ unhandled (runEffects old new) = unhandled new.
Proof.
  unfold runEffects.
  destruct (balanceDepsChanged old new), (feeDepsChanged old new); auto.
  - destruct (feeEffect_outside (balanceEffect new)) as (-> & -> & -> & ->).
    apply balanceEffect_outside.
  - apply balanceEffect_outside.
  - apply feeEffect_outside.
Qed.

(** No effect runs when no dependency changed. *)
Lemma runEffects_quiet (old new : World) :
  chainsRef (form new) = chainsRef (form old) ->
  account new = account old ->
  token (form new) = token (form old) ->
  runEffects old new = new.
Proof.
  intros Hc Ha Ht.
  unfold runEffects, balanceDepsChanged, feeDepsChanged.
  now rewrite Hc, Ha, Ht, Nat.eqb_refl, String.eqb_refl, optionToken_eqb_refl.
Qed.

(** The fee effect, when it runs on a form with chains and token, leaves
    the estimation for the current tuple as the newest pending promise. *)
Lemma feeEffect_newest (w : World) (c : FormChains) (t : Token) :
  chains (form w) = Some c ->
  token (form w) = Some t ->
  hd_error (inflight (feeEffect w))
  = Some (nextId w, EstimateBridgeGasPrice (from c) (to c) t (account w)).
Proof. intros Hc Ht. unfold feeEffect. now rewrite Hc, Ht. Qed.

(** ** Pending promises *)

Lemma lookup_dispatch (r : Request Rejection) (w : World) :
  lookup (nextId w) (inflight (dispatch r w)) = Some r.
Proof. unfold lookup. simpl. now rewrite Nat.eqb_refl. Qed.

(** A promise callback changes no effect dependency: the step is the
    callback. *)
Lemma step_estimate (w : World) (id : nat) (r : BigNumber + Rejection) :
  step w (EstimateSettled id r)
  = onEstimateSettled isEthersInsufficientFundsError id r w.
Proof.
  unfold step, handle. apply runEffects_quiet;
    unfold onEstimateSettled;
    destruct (lookup id (inflight w)) as [[]|]; try reflexivity;
    destruct r as [fee|e]; try reflexivity;
    destruct (isEthersInsufficientFundsError e); reflexivity.
Qed.

Lemma step_balance (w : World) (id : nat) (r : BigNumber + Rejection) :
  step w (GetBalanceSettled id r) = onGetBalanceSettled id r w.
Proof.
  unfold step, handle. apply runEffects_quiet;
    unfold onGetBalanceSettled;
    destruct (lookup id (inflight w)) as [[]|]; try reflexivity;
    destruct r; reflexivity.
Qed.

Lemma step_parse (w : World) (id : nat) (r : string + Rejection) :
  step w (ParseErrorSettled id r) = onParseErrorSettled id r w.
Proof.
  unfold step, handle. apply runEffects_quiet;
    unfold onParseErrorSettled;
    destruct (lookup id (inflight w)) as [[]|]; try reflexivity;
    destruct r; reflexivity.
Qed.

(** ** The submit gate *)

Lemma submitDisabled_false (s : FormState) :
  submitDisabled s = false <->
  (exists a, amount s = Some a /\ a <> 0)
  /\ inputError s = None
  /\ status (estimatedFee s) <> failed.
Proof.
  unfold submitDisabled, isZero.
  destruct (amount s) as [a|]; [|split; [discriminate | intros ((a & H & _) & _); discriminate]].
  destruct (Z.eqb_spec a 0) as [->|Ha]; simpl.
  - split; [discriminate | intros ((a & [= <-] & H) & _); now elim H].
  - destruct (inputError s); simpl.
    + split; [discriminate | intros (_ & H & _); discriminate].
    + destruct (estimatedFee s); simpl; split; try discriminate;
        try (intros _; repeat split; eauto; discriminate).
      intros (_ & _ & H). now elim H.
Qed.

(** C1, as the code has it.  For every draft state with an unsigned
    amount, the submit button is enabled if and only if the amount is set
    and greater than zero, [inputError] is unset, and [estimatedFee] is not
    in the failed state: a pending estimate leaves the button enabled, as a
    successful one does. *)
Theorem submit_enabled_iff (s : FormState) :
  unsignedAmount s ->
  (submitDisabled s = false <->
   (exists a, amount s = Some a /\ 0 < a)
   /\ inputError s = None
   /\ status (estimatedFee s) <> failed).
Proof.
  intros Hu. rewrite submitDisabled_false. split.
  - intros ((a & Ha & Hnz) & He & Hf). repeat split; auto.
    exists a. split; auto. specialize (Hu a Ha). lia.
  - intros ((a & Ha & Hpos) & He & Hf). repeat split; auto.
    exists a. split; auto. lia.
Qed.

(** ** Selecting the "from" chain *)

Lemma find_keyDiffers_some (from to_ : Chain) (l : list Chain) :
  find (keyDiffers from) l = Some to_ ->
  In to_ l /\ key to_ <> key from.
Proof.
  intros H. apply find_some in H. destruct H as [Hin Hk]. split; auto.
  unfold keyDiffers in Hk. apply negb_true_iff in Hk.
  now apply String.eqb_neq in Hk.
Qed.

Lemma find_keyDiffers_none (from : Chain) (l : list Chain) :
  (forall c, In c l -> key c = key from) ->
  find (keyDiffers from) l = None.
Proof.
  induction l as [|c l IH]; intros H; simpl; auto.
  unfold keyDiffers at 1.
  rewrite (H c (or_introl eq_refl)), String.eqb_refl. simpl.
  apply IH. intros c' Hc'. apply H. now right.
Qed.

(** The handler does nothing, or writes the clicked chain with a chain of
    another key found in the environment it captured, closes the picker
    and clears the amount. *)
Lemma onChainFromButtonClick_cases (env0 : option Env.t)
    (chains0 : option FormChains) (from : Chain) (s : FormState) :
  onChainFromButtonClick env0 chains0 from s = s
  \/ exists e to_,
       env0 = Some e
       /\ find (keyDiffers from) (Env.chainList e) = Some to_
       /\ onChainFromButtonClick env0 chains0 from s
          = setAmount None
              (setList None (setChains {| from := from; to := to_ |} s)).
Proof.
  unfold onChainFromButtonClick.
  destruct env0 as [e|]; [|now left].
  destruct chains0 as [c|]; [|now left].
  destruct (find (keyDiffers from) (Env.chainList e)) as [to_|] eqn:Hfind;
    [|now left].
  right. now exists e, to_.
Qed.

Lemma withForm_same (f : FormState -> FormState) (w : World) :
  f (form w) = form w -> withForm f w = w.
Proof. destruct w. unfold withForm. simpl. now intros ->. Qed.

Lemma withForm_ext (f g : FormState -> FormState) (w : World) :
  f (form w) = g (form w) -> withForm f w = withForm g w.
Proof. unfold withForm. now intros ->. Qed.

(** The same for the click on a chain of the picker. *)
Lemma listOnClick_cases (w : World) (from : Chain) :
  listOnClick w from = w
  \/ exists to_,
       listOnClick w from
       = withForm
           (fun s =>
              setAmount None
                (setList None (setChains {| from := from; to := to_ |} s)))
           w
       /\ key to_ <> key from
       /\ render (env w) (form w) <> None.
Proof.
  unfold listOnClick.
  destruct (render (env w) (form w)) as [v|] eqn:Hr; [|now left].
  destruct (list_ (form w)) as [l|]; [|now left].
  unfold callOnClick.
  destruct (onChainFromButtonClick_cases (capturedEnv (onClick l))
              (capturedChains (onClick l)) from (form w))
    as [Hsame|(e & to_ & _ & Hfind & Hset)].
  - left. now apply withForm_same.
  - right. exists to_. split; [now apply withForm_ext|].
    split; [|discriminate]. now apply find_keyDiffers_some in Hfind.
Qed.

Ltac click_cases :=
  match goal with
  | |- context [listOnClick ?w ?f] =>
      destruct (listOnClick_cases w f) as [->|(? & -> & ? & ?)]
  end.

(** With the picker opened with [e], the click reads [e]. *)
Lemma listOnClick_effective (w : World) (e : Env.t) (from to_ : Chain) :
  pickerOpenedWith e w ->
  find (keyDiffers from) (Env.chainList e) = Some to_ ->
  listOnClick w from
  = withForm
      (fun s =>
         setAmount None
           (setList None (setChains {| from := from; to := to_ |} s)))
      w.
Proof.
  intros (Hr & l & Hl & He & Hc) Hfind. unfold listOnClick.
  destruct (render (env w) (form w)); [|now elim Hr]. rewrite Hl.
  apply withForm_ext. unfold callOnClick, onChainFromButtonClick.
  rewrite He. destruct (capturedChains (onClick l)); [|now elim Hc].
  now rewrite Hfind.
Qed.

(** Opening the picker on a rendered form stores the handler of the
    current render. *)
Lemma opening_captures_env (w : World) (e : Env.t) :
  env w = Some e ->
  render (env w) (form w) <> None ->
  pickerOpenedWith e (step w ChainSelectorClick).
Proof.
  intros He Hr.
  assert (Hs : step w ChainSelectorClick
               = withForm
                   (setList
                      (Some {| type := chain_list;
                               items := Env.chainList e;
                               onClick :=
                                 {| capturedEnv := Some e;
                                    capturedChains := chains (form w) |} |}))
                   w).
  { unfold step, handle. rewrite He in *.
    destruct (render (Some e) (form w)); [|now elim Hr].
    now apply runEffects_quiet. }
  rewrite Hs. unfold pickerOpenedWith. simpl. rewrite He in *.
  unfold render in *. simpl.
  destruct (chains (form w)); [|now elim Hr].
  destruct (token (form w)); [|now elim Hr].
  split; [discriminate|]. eexists. repeat split. discriminate.
Qed.

Lemma step_form (w : World) (e : Event) :
  form (step w e) = form (handle w e).
Proof. unfold step. apply runEffects_form. Qed.

(** Apart from the replacement of the props, only the click on a chain
    writes [chains]. *)
Lemma handle_chains (w : World) (e : Event) :
  replacesProps e = false ->
  chains (form (handle w e)) = chains (form w)
  \/ exists from, e = ChainFromButtonClick from.
Proof.
  intros He. destruct e; try discriminate; simpl; eauto.
  - left. destruct (render (env w) (form w)), (env w); reflexivity.
  - left. now destruct (onFormSubmit (form w)).
  - left. unfold onGetBalanceSettled.
    destruct (lookup id (inflight w)) as [[]|]; try reflexivity;
      destruct r; reflexivity.
  - left. unfold onEstimateSettled.
    destruct (lookup id (inflight w)) as [[]|]; try reflexivity.
    destruct r as [fee|err]; try reflexivity.
    destruct (isEthersInsufficientFundsError err); reflexivity.
  - left. unfold onParseErrorSettled.
    destruct (lookup id (inflight w)) as [[]|]; try reflexivity;
      destruct r; reflexivity.
Qed.

Lemma step_distinctChains (w : World) (e : Event) :
  replacesProps e = false ->
  distinctChains (form w) ->
  distinctChains (form (step w e)).
Proof.
  intros He (c & Hc & Hne). unfold distinctChains. rewrite step_form.
  destruct (handle_chains w e He) as [Hsame|[from ->]].
  - exists c. now rewrite Hsame.
  - simpl.
    destruct (listOnClick_cases w from) as [->|(to_ & -> & Hk & _)].
    + now exists c.
    + exists {| from := from; to := to_ |}. split; auto.
Qed.

(** C9.  From a state whose selected chains differ, the chains selected
    after every transition of every sequence of events differ as well:
    clicks on a "from" chain, and any other event that does not replace
    the props the form was initialised from. *)
Theorem to_never_equals_from (w : World) (es : list Event) :
  distinctChains (form w) ->
  forallb (fun e => negb (replacesProps e)) es = true ->
  Forall (fun w' => distinctChains (form w')) (trace w es).
Proof.
  revert w. induction es as [|e es IH]; intros w Hw Hes; simpl.
  - constructor.
  - simpl in Hes. apply andb_true_iff in Hes. destruct Hes as [He Hes].
    apply negb_true_iff in He.
    constructor.
    + now apply step_distinctChains.
    + apply IH; auto. now apply step_distinctChains.
Qed.

(** C10.  The handler called on selecting a "from" chain reads the
    environment and the chains of its render, here those held by the
    handler stored in the picker.  When that environment or those chains
    are not there, or every chain configured in that environment has the
    key of the selected chain, the selection changes nothing: the form
    state, and with it chains, amount, [inputError], token,
    [estimatedFee] and the picker, and everything around it, pending
    requests included, are as before. *)
Theorem chain_click_noop (w : World) (list : ListState) (from : Chain) :
  list_ (form w) = Some list ->
  capturedEnv (onClick list) = None
  \/ capturedChains (onClick list) = None
  \/ (exists e, capturedEnv (onClick list) = Some e
               /\ forall c, In c (Env.chainList e) -> key c = key from) ->
  step w (ChainFromButtonClick from) = w.
Proof.
  intros Hl H.
  assert (Hs : callOnClick (onClick list) from (form w) = form w).
  { unfold callOnClick, onChainFromButtonClick.
    destruct H as [->|[H|(e & -> & H)]]; auto.
    - destruct (capturedEnv (onClick list)); auto. now rewrite H.
    - destruct (capturedChains (onClick list)); auto.
      now rewrite (find_keyDiffers_none from _ H). }
  assert (Hw : listOnClick w from = w).
  { unfold listOnClick. rewrite Hl.
    destruct (render (env w) (form w)); auto. now apply withForm_same. }
  unfold step, handle. rewrite Hw. now apply runEffects_quiet.
Qed.

(** The chosen "to" chain is the only candidate when the clicked chain is
    one of the two configured ones. *)
Lemma other_chain_unique (e : Env.t) (from to_ : Chain) :
  find (keyDiffers from) (Env.chainList e) = Some to_ ->
  key from = key (fst (Env.chains e)) \/ key from = key (snd (Env.chains e)) ->
  forall c, In c (Env.chainList e) -> key c <> key from -> c = to_.
Proof.
  unfold Env.chainList. destruct (Env.chains e) as [a b]. simpl.
  unfold keyDiffers.
  intros Hfind Hfrom c Hc Hk.
  destruct (String.eqb_spec (key a) (key from)) as [Ha|Ha]; simpl in Hfind.
  - destruct (String.eqb_spec (key b) (key from)) as [Hb|Hb]; simpl in Hfind;
      [discriminate|].
    injection Hfind as <-.
    destruct Hc as [<-|[<-|[]]]; [now elim Hk | reflexivity].
  - injection Hfind as <-.
    destruct Hc as [<-|[<-|[]]]; [reflexivity|].
    destruct Hfrom as [Hf|Hf]; [now elim Ha | now elim Hk].
Qed.

(** C5, as the code has it.  When the form is rendered with its picker
    open, opened in a render with the environment [e], and a chain
    configured in [e] has another key than the selected one, selecting a
    "from" chain makes it the "from" chain, makes the first chain of [e]
    with another key the "to" chain (the only such chain when the selected
    one is configured in [e]), clears the amount and closes the picker.
    [inputError], token and [estimatedFee] are as before the click; the
    estimation for the new pair is the newest pending request. *)
Theorem chain_click_effect (w : World) (from to_ : Chain) (e : Env.t)
    (t : Token) :
  pickerOpenedWith e w ->
  find (keyDiffers from) (Env.chainList e) = Some to_ ->
  token (form w) = Some t ->
  let w' := step w (ChainFromButtonClick from) in
  chains (form w') = Some {| from := from; to := to_ |}
  /\ key to_ <> key from
  /\ (key from = key (fst (Env.chains e))
      \/ key from = key (snd (Env.chains e)) ->
      forall c', In c' (Env.chainList e) -> key c' <> key from -> c' = to_)
  /\ amount (form w') = None
  /\ list_ (form w') = None
  /\ inputError (form w') = inputError (form w)
  /\ token (form w') = token (form w)
  /\ estimatedFee (form w') = estimatedFee (form w)
  /\ exists id,
       hd_error (inflight w')
       = Some (id, EstimateBridgeGasPrice from to_ t (account w)).
Proof.
  intros Hopen Hfind Ht w'.
  pose proof (listOnClick_effective w e from to_ Hopen Hfind) as Hclick.
  assert (Hform : form w'
                  = setAmount None
                      (setList None
                         (setChains {| from := from; to := to_ |} (form w)))).
  { subst w'. rewrite step_form. simpl. now rewrite Hclick. }
  rewrite Hform. simpl.
  repeat split; try reflexivity.
  - now apply find_keyDiffers_some in Hfind.
  - now apply other_chain_unique.
  - subst w'. unfold step.
    set (new := handle w (ChainFromButtonClick from)).
    assert (Hnew : form new
                   = setAmount None
                       (setList None
                          (setChains {| from := from; to := to_ |} (form w)))).
    { subst new. simpl. now rewrite Hclick. }
    assert (Hacc : account new = account w).
    { subst new. simpl. now rewrite Hclick. }
    unfold runEffects.
    replace (feeDepsChanged w new) with true.
    2:{ unfold feeDepsChanged. rewrite Hnew. simpl.
        replace (Nat.eqb (chainsRef (form w)) (S (chainsRef (form w))))
          with false.
        - now rewrite orb_true_r.
        - symmetry. apply Nat.eqb_neq. lia. }
    destruct (balanceDepsChanged w new); eexists.
    + rewrite (feeEffect_newest (balanceEffect new)
                 {| from := from; to := to_ |} t).
      * destruct (balanceEffect_outside new) as (-> & _). now rewrite Hacc.
      * now rewrite balanceEffect_form, Hnew.
      * now rewrite balanceEffect_form, Hnew.
    + rewrite (feeEffect_newest new {| from := from; to := to_ |} t).
      * now rewrite Hacc.
      * now rewrite Hnew.
      * now rewrite Hnew.
Qed.

(** ** The fee estimate *)

(** The handlers and callbacks other than the one of the estimation leave
    [estimatedFee] alone. *)
Lemma handle_estimatedFee (w : World) (e : Event) :
  (forall id r, e <> EstimateSettled id r) ->
  estimatedFee (form (handle w e)) = estimatedFee (form w).
Proof.
  intros He. destruct e; simpl; try reflexivity.
  - destruct (render (env w) (form w)), (env w); reflexivity.
  - now click_cases.
  - now destruct (onFormSubmit (form w)).
  - unfold initEffect. simpl. destruct (transaction w); auto.
    now destruct env0.
  - unfold initEffect. simpl. destruct transaction0; auto.
    now destruct (env w).
  - unfold onGetBalanceSettled.
    destruct (lookup id (inflight w)) as [[]|]; try reflexivity;
      destruct r; reflexivity.
  - now elim (He id r).
  - unfold onParseErrorSettled.
    destruct (lookup id (inflight w)) as [[]|]; try reflexivity;
      destruct r; reflexivity.
Qed.

(** C2, as the code has it.  When an event changes the fee-estimation
    tuple (chains, token or account), so that the estimation effect runs
    again, [estimatedFee] is left as it was before the event, whatever its
    state: it is not reset to pending.  With chains and token set, the
    estimation for the new tuple is then the newest pending request. *)
Theorem tuple_change_keeps_estimatedFee (w : World) (e : Event) :
  feeDepsChanged w (handle w e) = true ->
  let w' := step w e in
  estimatedFee (form w') = estimatedFee (form w)
  /\ (forall c t,
        chains (form w') = Some c ->
        token (form w') = Some t ->
        exists id,
          hd_error (inflight w')
          = Some (id, EstimateBridgeGasPrice (from c) (to c) t (account w'))).
Proof.
  intros Hdeps w'. split.
  - subst w'. rewrite step_form. apply handle_estimatedFee.
    intros id r ->. revert Hdeps. simpl.
    unfold feeDepsChanged, onEstimateSettled.
    destruct (lookup id (inflight w)) as [[]|]; [| |destruct r as [fee|err];
      [|destruct (isEthersInsufficientFundsError err)]| |]; simpl;
      now rewrite Nat.eqb_refl, String.eqb_refl, optionToken_eqb_refl.
  - intros c t. subst w'. unfold step, runEffects.
    rewrite Hdeps.
    destruct (balanceDepsChanged w (handle w e)); intros Hc Ht; eexists.
    + rewrite feeEffect_form in Hc, Ht.
      rewrite (feeEffect_newest _ c t Hc Ht).
      now destruct (feeEffect_outside (balanceEffect (handle w e))) as (-> & _).
    + rewrite feeEffect_form in Hc, Ht.
      rewrite (feeEffect_newest _ c t Hc Ht).
      now destruct (feeEffect_outside (handle w e)) as (-> & _).
Qed.

(** C3, as the code has it.  The completion of any pending estimation
    is written into [estimatedFee], whichever tuple the request was made
    for and however many requests were started after it: a fee on success,
    the insufficient-funds message on that failure; only a failure of
    another kind leaves [estimatedFee] as it was.  [estimatedFee] thus
    reflects the request that completed last, not the one started last. *)
Theorem every_completion_is_written (w : World) (id : nat)
    (from to_ : Chain) (t : Token) (destinationAddress : string)
    (r : BigNumber + Rejection) :
  lookup id (inflight w)
  = Some (EstimateBridgeGasPrice from to_ t destinationAddress) ->
  estimatedFee (form (step w (EstimateSettled id r)))
  = match r with
    | inl fee => Successful fee
    | inr error =>
        if isEthersInsufficientFundsError error
        then Failed insufficientFundsMessage
        else estimatedFee (form w)
    end.
Proof.
  intros Hid. rewrite step_estimate. unfold onEstimateSettled. rewrite Hid.
  destruct r as [fee|error]; [reflexivity|].
  now destruct (isEthersInsufficientFundsError error).
Qed.

(** C4, as the code has it.  When a pending estimation fails with an
    error that is not of the insufficient-funds kind, [estimatedFee] is
    left as it was and no notification is made yet; the error is handed to
    the error parser, and when the parser answers, exactly one
    notification is made, of type "error-msg" and carrying the parsed
    message, [estimatedFee] still being as it was. *)
Theorem generic_failure_is_notified (w : World) (id : nat)
    (from to_ : Chain) (t : Token) (destinationAddress : string)
    (error : Rejection) :
  lookup id (inflight w)
  = Some (EstimateBridgeGasPrice from to_ t destinationAddress) ->
  isEthersInsufficientFundsError error = false ->
  let w1 := step w (EstimateSettled id (inr error)) in
  estimatedFee (form w1) = estimatedFee (form w)
  /\ snackbar w1 = snackbar w
  /\ lookup (nextId w) (inflight w1) = Some (ParseError error)
  /\ forall errorMessage,
       let w2 := step w1 (ParseErrorSettled (nextId w) (inl errorMessage)) in
       estimatedFee (form w2) = estimatedFee (form w)
       /\ snackbar w2
          = snackbar w ++ [{| msgType := "error-msg"; text := errorMessage |}].
Proof.
  intros Hid Hkind w1.
  assert (Hw1 : w1 = dispatch (ParseError error) (settled id w)).
  { subst w1. rewrite step_estimate. unfold onEstimateSettled.
    now rewrite Hid, Hkind. }
  assert (Hparse : lookup (nextId w) (inflight w1) = Some (ParseError error)).
  { rewrite Hw1. apply (lookup_dispatch (ParseError error) (settled id w)). }
  repeat split; auto; try (rewrite Hw1; reflexivity).
  - rewrite step_parse. unfold onParseErrorSettled. rewrite Hparse.
    rewrite Hw1. reflexivity.
  - rewrite step_parse. unfold onParseErrorSettled. rewrite Hparse.
    rewrite Hw1. reflexivity.
Qed.

(** C6, as the code has it.  When a pending estimation fails with an
    error of the insufficient-funds kind, [estimatedFee] becomes failed
    with the fixed message "You don't have enough ETH to pay for the fees";
    no notification is made and none can follow, the error parser not
    being called; the submit button is disabled. *)
Theorem insufficient_funds_is_inline (w : World) (id : nat)
    (from to_ : Chain) (t : Token) (destinationAddress : string)
    (error : Rejection) :
  lookup id (inflight w)
  = Some (EstimateBridgeGasPrice from to_ t destinationAddress) ->
  isEthersInsufficientFundsError error = true ->
  let w1 := step w (EstimateSettled id (inr error)) in
  estimatedFee (form w1)
  = Failed "You don't have enough ETH to pay for the fees"
  /\ snackbar w1 = snackbar w
  /\ inflight w1 = inflight (settled id w)
  /\ submitDisabled (form w1) = true.
Proof.
  intros Hid Hkind w1.
  assert (Hw1 : w1 = withForm (setEstimatedFee (Failed insufficientFundsMessage))
                       (settled id w)).
  { subst w1. rewrite step_estimate. unfold onEstimateSettled.
    now rewrite Hid, Hkind. }
  rewrite Hw1. repeat split.
  simpl. unfold submitDisabled. simpl.
  destruct (amount (form w)); [|reflexivity].
  now rewrite !orb_true_r.
Qed.

(** ** Submitting *)

(** C7.  The submit event of the form reaches the handler while the
    submit button is enabled.  The handler then calls [onSubmit] only when
    the amount is set and has passed validation, [inputError] being unset,
    and [estimatedFee] is successful; the record it passes carries the
    chains, the token and the amount of the form, and as its
    [estimatedFee] the data of the successful task. *)
Theorem submit_emits_resolved_fee (s : FormState) (t : TransactionData.t) :
  submitDisabled s = false ->
  onFormSubmit s = Some t ->
  amount s = Some (TransactionData.amount t)
  /\ TransactionData.amount t <> 0
  /\ inputError s = None
  /\ estimatedFee s = Successful (TransactionData.estimatedFee t)
  /\ token s = Some (TransactionData.token t)
  /\ chains s = Some {| from := TransactionData.from t;
                        to := TransactionData.to t |}.
Proof.
  unfold onFormSubmit. intros Hb H.
  apply submitDisabled_false in Hb.
  destruct Hb as ((a' & Ha' & Hnz) & Herr & _).
  destruct (chains s) as [[f t']|]; [|discriminate].
  destruct (token s) as [tok|]; [|discriminate].
  destruct (amount s) as [a|] eqn:Ha; [|discriminate].
  destruct (estimatedFee s) as [|fee|]; try discriminate.
  injection H as <-. simpl.
  repeat split; auto. congruence.
Qed.

(** ** Failures of the asynchronous calls *)

(** A promise chain without a rejection handler: the rejection of a
    balance fetch or of the error parser is recorded as unhandled. *)
Lemma floating_promise_rejection (w : World) (id : nat)
    (r : Request Rejection) (error : Rejection) :
  lookup id (inflight w) = Some r ->
  match r with
  | GetBalanceFrom _ _ | GetBalanceTo _ _ =>
      unhandled (step w (GetBalanceSettled id (inr error)))
      = unhandled w ++ [error]
  | ParseError _ =>
      unhandled (step w (ParseErrorSettled id (inr error)))
      = unhandled w ++ [error]
  | EstimateBridgeGasPrice _ _ _ _ => True
  end.
Proof.
  intros Hid. destruct r; simpl; auto.
  - rewrite step_balance. unfold onGetBalanceSettled. now rewrite Hid.
  - rewrite step_balance. unfold onGetBalanceSettled. now rewrite Hid.
  - rewrite step_parse. unfold onParseErrorSettled. now rewrite Hid.
Qed.

(** C8, as the code has it.  A failure of the fee estimation is caught
    where the call is made: of the insufficient-funds kind it becomes the
    failed state, of another kind it is handed to the error parser and
    the form state, [estimatedFee] included, stays as it was.  A failure of
    a balance fetch leaves the form state as it was, the balance
    unresolved if it was so; a failure of the error parser leaves the form
    state and the notifications as they were. *)
Theorem async_failure_handling (w : World) (id : nat)
    (r : Request Rejection) (error : Rejection) :
  lookup id (inflight w) = Some r ->
  match r with
  | GetBalanceFrom _ _ | GetBalanceTo _ _ =>
      let w' := step w (GetBalanceSettled id (inr error)) in
      form w' = form w
  | EstimateBridgeGasPrice _ _ _ _ =>
      let w' := step w (EstimateSettled id (inr error)) in
      unhandled w' = unhandled w
      /\ if isEthersInsufficientFundsError error
         then estimatedFee (form w') = Failed insufficientFundsMessage
         else form w' = form w
              /\ lookup (nextId w) (inflight w') = Some (ParseError error)
  | ParseError _ =>
      let w' := step w (ParseErrorSettled id (inr error)) in
      form w' = form w /\ snackbar w' = snackbar w
  end.
Proof.
  intros Hid. destruct r; simpl.
  - rewrite step_balance. unfold onGetBalanceSettled. now rewrite Hid.
  - rewrite step_balance. unfold onGetBalanceSettled. now rewrite Hid.
  - rewrite step_estimate. unfold onEstimateSettled. rewrite Hid.
    destruct (isEthersInsufficientFundsError error); repeat split.
    apply (lookup_dispatch (ParseError error) (settled id w)).
  - rewrite step_parse. unfold onParseErrorSettled. rewrite Hid.
    now split.
Qed.

(** ** Mounting *)

Lemma getChains_distinct (ethereumRpcUrl polygonHermezRpcUrl : string)
    (polygonHermezNetworkId : Z) :
  let configured :=
    Constants.getChains ethereumRpcUrl polygonHermezRpcUrl
      polygonHermezNetworkId in
  key (fst configured) <> key (snd configured).
Proof. simpl. discriminate. Qed.

(** Mounted without a prior transaction, the form selects the two
    configured chains and the native token. *)
Lemma mount_defaults (e : Env.t) (account : string) :
  let w : World := mount (Some e) None account in
  chains (form w)
  = Some {| from := fst (Env.chains e); to := snd (Env.chains e) |}
  /\ token (form w) = Some (Env.tokens_ETH e)
  /\ amount (form w) = None
  /\ estimatedFee (form w) = Pending
  /\ submitDisabled (form w) = true.
Proof.
  intros w. subst w. unfold mount. rewrite !runEffects_form.
  repeat split.
Qed.

Lemma mount_distinctChains (e : Env.t) (account : string) :
  key (fst (Env.chains e)) <> key (snd (Env.chains e)) ->
  distinctChains (form (mount (Rejection := Rejection) (Some e) None account)).
Proof.
  intros Hk. destruct (mount_defaults e account) as (Hc & _).
  eexists. split; [exact Hc | exact Hk].
Qed.

(** * Further properties of the form *)

Local Abbreviation run := (run isEthersInsufficientFundsError).

(** ** Mounting *)

(** Mounted with an environment and no prior transaction, the form
    selects the two configured chains in their order and the native
    token, has no amount, no error and a pending fee, shows a disabled
    submit button, and has started exactly three calls: the balance on the
    "from" chain, the balance on the "to" chain and the fee estimation,
    all for the account. *)
Theorem mount_without_transaction (e : Env.t) (acc : string) :
  let w : World := mount (Some e) None acc in
  chains (form w)
  = Some {| from := fst (Env.chains e); to := snd (Env.chains e) |}
  /\ token (form w) = Some (Env.tokens_ETH e)
  /\ amount (form w) = None
  /\ inputError (form w) = None
  /\ estimatedFee (form w) = Pending
  /\ render (Some e) (form w)
     = Some {| disabled := true; errors := []; listOpen := false |}
  /\ inflight w
     = [(2%nat, EstimateBridgeGasPrice (fst (Env.chains e))
                  (snd (Env.chains e)) (Env.tokens_ETH e) acc);
        (1%nat, GetBalanceTo (snd (Env.chains e)) acc);
        (0%nat, GetBalanceFrom (fst (Env.chains e)) acc)].
Proof.
  unfold mount, runEffects, balanceDepsChanged, feeDepsChanged. simpl.
  rewrite String.eqb_refl. simpl. repeat split.
Qed.

(** Mounted with a prior transaction, the form takes chains, token and
    amount from it, whatever the environment.  The fee of the prior
    transaction is not taken over: the estimate is pending and a new
    estimation is started, with the two balance fetches.  The submit
    button is disabled exactly when the amount taken over is zero. *)
Theorem mount_with_transaction (env0 : option Env.t)
    (t : TransactionData.t) (acc : string) :
  let w : World := mount env0 (Some t) acc in
  chains (form w)
  = Some {| from := TransactionData.from t; to := TransactionData.to t |}
  /\ token (form w) = Some (TransactionData.token t)
  /\ amount (form w) = Some (TransactionData.amount t)
  /\ inputError (form w) = None
  /\ estimatedFee (form w) = Pending
  /\ submitDisabled (form w) = isZero (TransactionData.amount t)
  /\ inflight w
     = [(2%nat, EstimateBridgeGasPrice (TransactionData.from t)
                  (TransactionData.to t) (TransactionData.token t) acc);
        (1%nat, GetBalanceTo (TransactionData.to t) acc);
        (0%nat, GetBalanceFrom (TransactionData.from t) acc)].
Proof.
  unfold mount, runEffects, balanceDepsChanged, feeDepsChanged. simpl.
  rewrite String.eqb_refl. simpl. repeat split.
  unfold submitDisabled. simpl. now rewrite !orb_false_r.
Qed.

(** ** The errors under the button *)

(** At most one error is shown.  When the estimate failed it is the
    error of the estimate, whatever the input error.  Otherwise it is the
    input error, and only when an amount is set and the error is not the
    empty string: without an amount, or without an input error, nothing is
    shown. *)
Theorem one_error_shown (s : FormState) :
  (List.length (shownErrors s) <= 1)%nat
  /\ (forall error, estimatedFee s = Failed error -> shownErrors s = [error])
  /\ (forall error,
        status (estimatedFee s) <> failed ->
        amount s <> None ->
        inputError s = Some error ->
        shownErrors s = if truthy error then [error] else [])
  /\ (status (estimatedFee s) <> failed ->
      amount s = None ->
      shownErrors s = [])
  /\ (status (estimatedFee s) <> failed ->
      inputError s = None ->
      shownErrors s = []).
Proof.
  unfold shownErrors. repeat split.
  - destruct (amount s), (inputError s) as [error|], (estimatedFee s);
      simpl; try destruct (truthy error); simpl; lia.
  - intros error ->. now destruct (amount s), (inputError s).
  - intros error Hf Ha ->. destruct (amount s); [|now elim Ha].
    destruct (estimatedFee s); simpl; try apply app_nil_r.
    now elim Hf.
  - intros Hf ->. destruct (estimatedFee s); simpl; auto. now elim Hf.
  - intros Hf ->. destruct (amount s), (estimatedFee s); simpl; auto;
      now elim Hf.
Qed.

(** Whenever an error is shown, the submit button is disabled. *)
Theorem error_shown_disables_submit (s : FormState) :
  shownErrors s <> [] ->
  submitDisabled s = true.
Proof.
  unfold shownErrors, submitDisabled. intros H.
  destruct (amount s) as [a|]; [|reflexivity].
  destruct (estimatedFee s); simpl; rewrite ?orb_true_r; auto;
    destruct (inputError s); simpl; rewrite ?orb_true_r; auto;
    now elim H.
Qed.

(** ** Typing an amount *)

(** The change of the input writes the amount and the input error it is
    given and nothing else: chains, token, balances, estimate and picker
    are as before, and no call is started. *)
Theorem input_change_frame (w : World) (a : option BigNumber)
    (error : option string) :
  let w' := step w (InputChange a error) in
  amount (form w') = a
  /\ inputError (form w') = error
  /\ chains (form w') = chains (form w)
  /\ token (form w') = token (form w)
  /\ balanceFrom (form w') = balanceFrom (form w)
  /\ balanceTo (form w') = balanceTo (form w)
  /\ estimatedFee (form w') = estimatedFee (form w)
  /\ list_ (form w') = list_ (form w)
  /\ inflight w' = inflight w
  /\ snackbar w' = snackbar w
  /\ submitted w' = submitted w.
Proof.
  intros w'. subst w'. unfold step.
  rewrite runEffects_quiet by reflexivity. repeat split.
Qed.

(** ** What writes the estimate *)

(** Over any sequence of events that contains no completion of an
    estimation, [estimatedFee] stays what it was: chain selections,
    account, environment and transaction changes, typing, submitting and
    the other completions never write it. *)
Theorem only_estimation_writes_fee (w : World) (es : list Event) :
  forallb (fun e => negb (isEstimateSettled e)) es = true ->
  estimatedFee (form (run w es)) = estimatedFee (form w).
Proof.
  revert w. induction es as [|e es IH]; intros w Hes; [reflexivity|].
  simpl in Hes. apply andb_true_iff in Hes. destruct Hes as [He Hes].
  simpl. rewrite IH by assumption.
  rewrite step_form. apply handle_estimatedFee.
  intros id r ->. discriminate.
Qed.

(** ** A change of the account *)

(** When the account changes, the form state is kept as it is, amount
    and estimate included, and with chains and token set exactly three
    calls are started for the new account, none of the pending ones being
    withdrawn. *)
Theorem account_change (w : World) (acc : string) (c : FormChains)
    (t : Token) :
  acc <> account w ->
  chains (form w) = Some c ->
  token (form w) = Some t ->
  let w' := step w (AccountChanged acc) in
  form w' = form w
  /\ account w' = acc
  /\ inflight w'
     = (S (S (nextId w)), EstimateBridgeGasPrice (from c) (to c) t acc)
       :: (S (nextId w), GetBalanceTo (to c) acc)
       :: (nextId w, GetBalanceFrom (from c) acc)
       :: inflight w.
Proof.
  intros Hacc Hc Ht w'. subst w'.
  unfold step, runEffects, balanceDepsChanged, feeDepsChanged. simpl.
  apply String.eqb_neq in Hacc. rewrite String.eqb_sym in Hacc.
  rewrite Hacc, orb_true_r. simpl.
  unfold balanceEffect, feeEffect. simpl. rewrite Hc. simpl. rewrite Hc, Ht.
  repeat split.
Qed.

(** ** Submitting *)

(** Without a successful estimate the submit event does nothing at all,
    the button being enabled or not. *)
Theorem submit_without_fee_noop (w : World) :
  (forall data, estimatedFee (form w) <> Successful data) ->
  step w FormSubmit = w.
Proof.
  intros H. unfold step. simpl.
  assert (Hn : onFormSubmit (form w) = None).
  { unfold onFormSubmit.
    destruct (chains (form w)), (token (form w)), (amount (form w));
      try reflexivity.
    destruct (estimatedFee (form w)) as [|data|]; try reflexivity.
    now elim (H data). }
  rewrite Hn. now apply runEffects_quiet.
Qed.

(** Submitting keeps the form as it is, so that a second submit event
    passes the same record once more. *)
Theorem submit_twice (w : World) (t : TransactionData.t) :
  onFormSubmit (form w) = Some t ->
  let w' := run w [FormSubmit; FormSubmit] in
  form w' = form w
  /\ inflight w' = inflight w
  /\ submitted w' = submitted w ++ [t; t].
Proof.
  intros Ht w'. subst w'.
  assert (Hstep : forall v : World,
             onFormSubmit (form v) = Some t ->
             step v FormSubmit = onSubmit t v).
  { intros v Hv. unfold step. simpl. rewrite Hv.
    now apply runEffects_quiet. }
  simpl. rewrite (Hstep w Ht). rewrite (Hstep (onSubmit t w) Ht).
  simpl. repeat split. now rewrite <- app_assoc.
Qed.

(** ** The picker *)

Lemma setList_None_id (s : FormState) :
  list_ s = None -> setList None s = s.
Proof. destruct s. simpl. now intros ->. Qed.

(** Opening the picker and closing it again leaves everything as it was,
    and starts no call. *)
Theorem picker_open_close (w : World) :
  list_ (form w) = None ->
  run w [ChainSelectorClick; ListClose] = w.
Proof.
  intros Hl. simpl.
  assert (Hopen : forall v : World,
             handle v ChainSelectorClick = v
             \/ exists l, handle v ChainSelectorClick
                          = withForm (setList (Some l)) v).
  { intros v. simpl.
    destruct (render (env v) (form v)); auto. destruct (env v); eauto. }
  assert (Hw : step w ChainSelectorClick = handle w ChainSelectorClick).
  { unfold step. apply runEffects_quiet;
      destruct (Hopen w) as [->|[l ->]]; reflexivity. }
  rewrite Hw. unfold step at 1.
  rewrite runEffects_quiet;
    try (destruct (Hopen w) as [->|[l ->]]; reflexivity).
  destruct (Hopen w) as [->|[l ->]]; simpl.
  - destruct w as [? ? ? f ? ? ? ? ?]. unfold withForm. simpl in *.
    now rewrite setList_None_id.
  - destruct w as [? ? ? f ? ? ? ? ?]. unfold withForm. simpl in *.
    f_equal. destruct f. simpl in *. now subst.
Qed.

(** ** Pending calls are never withdrawn *)

Lemma fresh_dispatch (r : Request Rejection) (w : World) :
  fresh w -> fresh (dispatch r w).
Proof.
  unfold fresh. simpl. intros H. constructor; [simpl; lia|].
  eapply Forall_impl; [|exact H]. simpl. intros p Hp. lia.
Qed.

Lemma fresh_settled (id : nat) (w : World) :
  fresh w -> fresh (settled id w).
Proof.
  unfold fresh. simpl. rewrite !Forall_forall.
  intros H p Hp. apply filter_In in Hp. now apply H.
Qed.

Lemma fresh_balanceEffect (w : World) : fresh w -> fresh (balanceEffect w).
Proof.
  unfold balanceEffect. destruct (chains (form w)); auto.
  intros H. now apply fresh_dispatch, fresh_dispatch.
Qed.

Lemma fresh_feeEffect (w : World) : fresh w -> fresh (feeEffect w).
Proof.
  unfold feeEffect. destruct (chains (form w)), (token (form w)); auto.
  apply fresh_dispatch.
Qed.

Lemma fresh_runEffects (old new : World) :
  fresh new -> fresh (runEffects old new).
Proof.
  unfold runEffects. intros H.
  destruct (balanceDepsChanged old new), (feeDepsChanged old new);
    auto using fresh_balanceEffect, fresh_feeEffect.
Qed.

Lemma fresh_initEffect (w : World) : fresh w -> fresh (initEffect w).
Proof.
  unfold initEffect. destruct (transaction w); auto. now destruct (env w).
Qed.

Lemma fresh_handle (w : World) (e : Event) : fresh w -> fresh (handle w e).
Proof.
  intros H. destruct e; simpl; auto.
  - now destruct (render (env w) (form w)), (env w).
  - now click_cases.
  - now destruct (onFormSubmit (form w)).
  - now apply (fresh_initEffect (withEnv env0 w)).
  - now apply (fresh_initEffect (withTransaction transaction0 w)).
  - unfold onGetBalanceSettled.
    destruct (lookup id (inflight w)) as [[]|]; auto;
      destruct r; now apply (fresh_settled id).
  - unfold onEstimateSettled.
    destruct (lookup id (inflight w)) as [[]|]; auto.
    destruct r as [fee|error]; [now apply (fresh_settled id)|].
    destruct (isEthersInsufficientFundsError error).
    + now apply (fresh_settled id).
    + now apply fresh_dispatch, fresh_settled.
  - unfold onParseErrorSettled.
    destruct (lookup id (inflight w)) as [[]|]; auto;
      destruct r; now apply (fresh_settled id).
Qed.

Lemma fresh_step (w : World) (e : Event) : fresh w -> fresh (step w e).
Proof. intros H. now apply fresh_runEffects, fresh_handle. Qed.

Lemma fresh_run (w : World) (es : list Event) : fresh w -> fresh (run w es).
Proof.
  revert w. induction es as [|e es IH]; intros w H; simpl; auto.
  now apply IH, fresh_step.
Qed.

Lemma fresh_mount (env0 : option Env.t) (t : option TransactionData.t)
    (acc : string) :
  fresh (mount (Rejection := Rejection) env0 t acc).
Proof.
  unfold mount. apply fresh_runEffects, fresh_initEffect. constructor.
Qed.

Lemma lookup_lt (w : World) (id : nat) (r : Request Rejection) :
  fresh w -> lookup id (inflight w) = Some r -> (id < nextId w)%nat.
Proof.
  unfold fresh, lookup. intros H Hl.
  destruct (find (fun p => Nat.eqb (fst p) id) (inflight w)) as [p|] eqn:Hf;
    [|discriminate].
  apply find_some in Hf. destruct Hf as [Hin Hid].
  apply Nat.eqb_eq in Hid. subst id.
  rewrite Forall_forall in H. now apply H.
Qed.

Lemma lookup_dispatch_ne (r : Request Rejection) (w : World) (id : nat) :
  (id < nextId w)%nat ->
  lookup id (inflight (dispatch r w)) = lookup id (inflight w).
Proof.
  intros H. unfold lookup. simpl.
  replace (Nat.eqb (nextId w) id) with false; [reflexivity|].
  symmetry. apply Nat.eqb_neq. lia.
Qed.

Lemma lookup_filter_ne (l : list (nat * Request Rejection)) (id id' : nat) :
  id <> id' ->
  lookup id (filter (fun p => negb (Nat.eqb (fst p) id')) l) = lookup id l.
Proof.
  intros Hne. unfold lookup.
  induction l as [|p l IH]; [reflexivity|]. simpl.
  destruct (Nat.eqb_spec (fst p) id') as [Hp|Hp]; simpl.
  - destruct (Nat.eqb_spec (fst p) id) as [Hq|Hq]; [congruence|exact IH].
  - destruct (Nat.eqb (fst p) id); [reflexivity|exact IH].
Qed.

Lemma lookup_balanceEffect (w : World) (id : nat) :
  (id < nextId w)%nat ->
  lookup id (inflight (balanceEffect w)) = lookup id (inflight w)
  /\ (nextId w <= nextId (balanceEffect w))%nat.
Proof.
  intros H. unfold balanceEffect. destruct (chains (form w)); [|auto].
  rewrite lookup_dispatch_ne by (simpl; lia).
  rewrite lookup_dispatch_ne by assumption. simpl. split; [reflexivity|lia].
Qed.

Lemma lookup_feeEffect (w : World) (id : nat) :
  (id < nextId w)%nat ->
  lookup id (inflight (feeEffect w)) = lookup id (inflight w).
Proof.
  intros H. unfold feeEffect.
  destruct (chains (form w)), (token (form w)); auto.
  now apply lookup_dispatch_ne.
Qed.

Lemma lookup_runEffects (old new : World) (id : nat) :
  (id < nextId new)%nat ->
  lookup id (inflight (runEffects old new)) = lookup id (inflight new).
Proof.
  intros H. unfold runEffects.
  destruct (lookup_balanceEffect new id H) as [Hb Hn].
  destruct (balanceDepsChanged old new), (feeDepsChanged old new); auto.
  - rewrite lookup_feeEffect by lia. exact Hb.
  - now apply lookup_feeEffect.
Qed.

Lemma lookup_handle (w : World) (e : Event) (id : nat) :
  (id < nextId w)%nat ->
  settles e <> Some id ->
  lookup id (inflight (handle w e)) = lookup id (inflight w)
  /\ (nextId w <= nextId (handle w e))%nat.
Proof.
  intros Hlt He. destruct e; simpl in *; auto.
  - now destruct (render (env w) (form w)), (env w).
  - now click_cases.
  - now destruct (onFormSubmit (form w)).
  - unfold initEffect. simpl. destruct (transaction w); auto.
    now destruct env0.
  - unfold initEffect. simpl. destruct transaction0; auto.
    now destruct (env w).
  - assert (Hne : id <> id0) by congruence.
    unfold onGetBalanceSettled.
    destruct (lookup id0 (inflight w)) as [[]|]; auto;
      destruct r; simpl; split; auto; now apply lookup_filter_ne.
  - assert (Hne : id <> id0) by congruence.
    unfold onEstimateSettled.
    destruct (lookup id0 (inflight w)) as [[]|]; auto.
    destruct r as [fee|error]; simpl;
      [split; auto; now apply lookup_filter_ne|].
    destruct (isEthersInsufficientFundsError error); simpl.
    + split; auto. now apply lookup_filter_ne.
    + split; [|lia].
      rewrite (lookup_dispatch_ne (ParseError error) (settled id0 w))
        by assumption.
      now apply lookup_filter_ne.
  - assert (Hne : id <> id0) by congruence.
    unfold onParseErrorSettled.
    destruct (lookup id0 (inflight w)) as [[]|]; auto;
      destruct r; simpl; split; auto; now apply lookup_filter_ne.
Qed.

Lemma lookup_step (w : World) (e : Event) (id : nat)
    (r : Request Rejection) :
  fresh w ->
  lookup id (inflight w) = Some r ->
  settles e <> Some id ->
  lookup id (inflight (step w e)) = Some r.
Proof.
  intros Hf Hl He. pose proof (lookup_lt w id r Hf Hl) as Hlt.
  destruct (lookup_handle w e id Hlt He) as [Hh Hn].
  unfold step. rewrite lookup_runEffects by lia. now rewrite Hh.
Qed.

Lemma lookup_run (w : World) (es : list Event) (id : nat)
    (r : Request Rejection) :
  fresh w ->
  lookup id (inflight w) = Some r ->
  Forall (fun e => settles e <> Some id) es ->
  lookup id (inflight (run w es)) = Some r.
Proof.
  revert w. induction es as [|e es IH]; intros w Hf Hl Hes; [exact Hl|].
  inversion Hes as [|e' es' He Hes']; subst. simpl.
  apply IH; auto using fresh_step, lookup_step.
Qed.

(** At any point after the mount, a call that is pending stays pending,
    with the arguments it was made with, through every sequence of events
    that does not contain its own completion: selecting another chain,
    changing the account or replacing the props withdraws nothing. *)
Theorem pending_never_withdrawn (env0 : option Env.t)
    (t : option TransactionData.t) (acc : string) (es0 es : list Event)
    (id : nat) (r : Request Rejection) :
  let w := run (mount env0 t acc) es0 in
  lookup id (inflight w) = Some r ->
  Forall (fun e => settles e <> Some id) es ->
  lookup id (inflight (run w es)) = Some r.
Proof.
  intros w. apply lookup_run. apply fresh_run, fresh_mount.
Qed.

(** ** The two balances *)

(** The two balance fetches are independent: at any point after the
    mount, when the one of the "from" chain fails, the one of the "to"
    chain, completing afterwards, still writes [balanceTo], and
    [balanceFrom] is left as it was. *)
Theorem balances_independent (env0 : option Env.t)
    (t : option TransactionData.t) (acc : string) (es0 : list Event)
    (i j : nat) (c c' : Chain) (a a' : string) (error : Rejection)
    (balance : BigNumber) :
  let w := run (mount env0 t acc) es0 in
  lookup i (inflight w) = Some (GetBalanceFrom c a) ->
  lookup j (inflight w) = Some (GetBalanceTo c' a') ->
  let w' := run w [GetBalanceSettled i (inr error);
                   GetBalanceSettled j (inl balance)] in
  balanceTo (form w') = Some balance
  /\ balanceFrom (form w') = balanceFrom (form w).
Proof.
  intros w Hi Hj w'. subst w'. simpl.
  assert (Hf : fresh w) by apply fresh_run, fresh_mount.
  assert (Hne : i <> j) by (intros ->; congruence).
  assert (Hj' : lookup j (inflight (step w (GetBalanceSettled i (inr error))))
                = Some (GetBalanceTo c' a')).
  { apply lookup_step; auto. simpl. congruence. }
  assert (Hw1 : step w (GetBalanceSettled i (inr error))
                = unhandledRejection error (settled i w)).
  { rewrite step_balance. unfold onGetBalanceSettled. now rewrite Hi. }
  set (w1 := step w (GetBalanceSettled i (inr error))) in *.
  rewrite step_balance. unfold onGetBalanceSettled. rewrite Hj'.
  simpl. rewrite Hw1. split; reflexivity.
Qed.

(** ** Notifications *)

Lemma parses_filter_le (f : nat * Request Rejection -> bool)
    (l : list (nat * Request Rejection)) :
  (List.length (filter (fun p => isParseError (snd p)) (filter f l))
   <= List.length (filter (fun p => isParseError (snd p)) l))%nat.
Proof.
  induction l as [|p l IH]; simpl; [lia|].
  destruct (f p); simpl; destruct (isParseError (snd p)); simpl; lia.
Qed.

Lemma parses_settled_lt (l : list (nat * Request Rejection)) (id : nat)
    (error : Rejection) :
  lookup id l = Some (ParseError error) ->
  (S (List.length (filter (fun p => isParseError (snd p))
                     (filter (fun p => negb (Nat.eqb (fst p) id)) l)))
   <= List.length (filter (fun p => isParseError (snd p)) l))%nat.
Proof.
  unfold lookup. induction l as [|p l IH]; simpl; [discriminate|].
  destruct (Nat.eqb (fst p) id); simpl.
  - intros [= Hp]. rewrite Hp. simpl.
    pose proof (parses_filter_le (fun p => negb (Nat.eqb (fst p) id)) l).
    lia.
  - intros H. specialize (IH H).
    destruct (isParseError (snd p)); simpl; lia.
Qed.

Lemma pendingParses_runEffects (old new : World) :
  pendingParses (runEffects old new) = pendingParses new.
Proof.
  unfold runEffects, balanceEffect, feeEffect.
  destruct (balanceDepsChanged old new), (feeDepsChanged old new);
    destruct (chains (form new)) eqn:Hc; simpl; rewrite ?Hc;
    destruct (token (form new)); reflexivity.
Qed.

Lemma pendingParses_settled (id : nat) (w : World) :
  (pendingParses (settled id w) <= pendingParses w)%nat.
Proof. apply parses_filter_le. Qed.

(** A step adds a notification only by taking a pending call of the
    error parser away, and adds such a call only on an estimation failure
    of another kind than insufficient funds. *)
Lemma notify_step (w : World) (e : Event) :
  (List.length (snackbar (step w e)) + pendingParses (step w e)
   <= List.length (snackbar w) + pendingParses w
      + (if isGenericFailure isEthersInsufficientFundsError e then 1 else 0))%nat.
Proof.
  unfold step. rewrite pendingParses_runEffects.
  destruct (runEffects_outside w (handle w e)) as (_ & -> & _).
  unfold pendingParses.
  destruct e; simpl; try lia.
  - destruct (render (env w) (form w)), (env w); simpl; lia.
  - click_cases; simpl; lia.
  - destruct (onFormSubmit (form w)); simpl; lia.
  - unfold initEffect. simpl. destruct (transaction w); simpl; try lia.
    destruct env0; simpl; lia.
  - unfold initEffect. simpl. destruct transaction0; simpl; try lia.
    destruct (env w); simpl; lia.
  - pose proof (parses_filter_le (fun p => negb (Nat.eqb (fst p) id))
                  (inflight w)).
    unfold onGetBalanceSettled.
    destruct (lookup id (inflight w)) as [[]|]; try lia;
      destruct r; simpl; lia.
  - pose proof (parses_filter_le (fun p => negb (Nat.eqb (fst p) id))
                  (inflight w)).
    unfold onEstimateSettled.
    destruct (lookup id (inflight w)) as [[]|];
      destruct r as [fee|err];
      try destruct (isEthersInsufficientFundsError err); simpl; lia.
  - unfold onParseErrorSettled.
    destruct (lookup id (inflight w)) as [[]|] eqn:Hl; try lia.
    pose proof (parses_settled_lt (inflight w) id error Hl) as Hlt.
    destruct r; simpl; rewrite ?length_app; simpl; lia.
Qed.

Lemma notify_run (w : World) (es : list Event) :
  (List.length (snackbar (run w es)) + pendingParses (run w es)
   <= List.length (snackbar w) + pendingParses w
      + genericFailures isEthersInsufficientFundsError es)%nat.
Proof.
  revert w. induction es as [|e es IH]; intros w; simpl; [lia|].
  specialize (IH (step w e)). pose proof (notify_step w e) as Hs.
  unfold genericFailures in *. simpl.
  destruct (isGenericFailure isEthersInsufficientFundsError e); simpl; lia.
Qed.

(** From the mount on, whatever the events and their order, the form
    has made at most as many notifications as estimations have failed
    with an error of another kind than insufficient funds: no other
    event, and no failure of the insufficient-funds kind, ever notifies. *)
Theorem notifications_bounded (env0 : option Env.t)
    (t : option TransactionData.t) (acc : string) (es : list Event) :
  (List.length (snackbar (run (mount env0 t acc) es))
   <= genericFailures isEthersInsufficientFundsError es)%nat.
Proof.
  pose proof (notify_run (mount env0 t acc) es) as H.
  assert (H0 : List.length (snackbar (mount (Rejection := Rejection) env0 t acc))
               = 0%nat
               /\ pendingParses (mount (Rejection := Rejection) env0 t acc)
                  = 0%nat).
  { unfold mount. rewrite pendingParses_runEffects.
    destruct (runEffects_outside (unmounted env0 t acc)
                (initEffect (unmounted env0 t acc))) as (_ & -> & _).
    unfold initEffect. simpl. destruct t; [now split|].
    destruct env0; now split. }
  destruct H0 as [Hs Hp]. lia.
Qed.

(** ** Chains and token *)

Lemma handle_token (w : World) (e : Event) :
  replacesProps e = false ->
  token (form (handle w e)) = token (form w).
Proof.
  intros He. destruct e; try discriminate; simpl; auto.
  - destruct (render (env w) (form w)), (env w); reflexivity.
  - now click_cases.
  - now destruct (onFormSubmit (form w)).
  - unfold onGetBalanceSettled.
    destruct (lookup id (inflight w)) as [[]|]; try reflexivity;
      destruct r; reflexivity.
  - unfold onEstimateSettled.
    destruct (lookup id (inflight w)) as [[]|]; try reflexivity.
    destruct r as [fee|err]; try reflexivity.
    destruct (isEthersInsufficientFundsError err); reflexivity.
  - unfold onParseErrorSettled.
    destruct (lookup id (inflight w)) as [[]|]; try reflexivity;
      destruct r; reflexivity.
Qed.

Lemma initEffect_sets_both (w : World) :
  form (initEffect w) = form w
  \/ (chains (form (initEffect w)) <> None
      /\ token (form (initEffect w)) <> None).
Proof.
  unfold initEffect. destruct (transaction w).
  - right. split; discriminate.
  - destruct (env w); [right; split; discriminate | now left].
Qed.

Lemma step_chains_token (w : World) (e : Event) :
  (chains (form w) = None <-> token (form w) = None) ->
  (chains (form (step w e)) = None <-> token (form (step w e)) = None).
Proof.
  intros H. rewrite step_form.
  destruct (replacesProps e) eqn:He.
  - assert (Hi : exists v : World,
               form v = form w /\ handle w e = initEffect v).
    { destruct e; try discriminate; simpl; eexists;
        (split; [|reflexivity]); reflexivity. }
    destruct Hi as (v & Hv & ->).
    destruct (initEffect_sets_both v) as [->|[Hc Ht]];
      [now rewrite Hv | split; intros H'; contradiction].
  - rewrite (handle_token w e He).
    destruct (handle_chains w e He) as [->|[from ->]]; [exact H|].
    simpl.
    destruct (listOnClick_cases w from) as [->|(to_ & -> & _ & Hr)];
      [exact H|].
    simpl. split; [discriminate|].
    intros Ht. elim Hr. unfold render. rewrite Ht.
    now destruct (env w), (chains (form w)).
Qed.

(** From the mount on, chains and token are set together: after every
    sequence of events either both are there or none is, so that the fee
    estimation is started whenever the balance fetches are. *)
Theorem chains_token_together (env0 : option Env.t)
    (t : option TransactionData.t) (acc : string) (es : list Event) :
  let w := run (mount env0 t acc) es in
  chains (form w) = None <-> token (form w) = None.
Proof.
  simpl.
  assert (H0 : chains (form (mount (Rejection := Rejection) env0 t acc)) = None
               <-> token (form (mount (Rejection := Rejection) env0 t acc))
                   = None).
  { unfold mount. rewrite runEffects_form.
    destruct (initEffect_sets_both (unmounted env0 t acc)) as [->|[Hc Ht]];
      [now split | split; intros H'; contradiction]. }
  revert H0. generalize (mount (Rejection := Rejection) env0 t acc).
  induction es as [|e es IH]; intros w H; simpl; [exact H|].
  apply IH. now apply step_chains_token.
Qed.

(** Once a chain pair is selected, no event unsets it, the replacement of
    the environment or of the transaction by nothing included. *)
Theorem chains_never_unset (w : World) (es : list Event) :
  chains (form w) <> None ->
  chains (form (run w es)) <> None.
Proof.
  revert w. induction es as [|e es IH]; intros w H; simpl; [exact H|].
  apply IH. rewrite step_form.
  destruct (replacesProps e) eqn:He.
  - assert (Hi : exists v : World,
               form v = form w /\ handle w e = initEffect v).
    { destruct e; try discriminate; simpl; eexists;
        (split; [|reflexivity]); reflexivity. }
    destruct Hi as (v & Hv & ->).
    destruct (initEffect_sets_both v) as [->|[Hc _]];
      [now rewrite Hv | exact Hc].
  - destruct (handle_chains w e He) as [->|[from ->]]; [exact H|].
    simpl.
    destruct (listOnClick_cases w from) as [->|(to_ & -> & _)];
      [exact H | discriminate].
Qed.

(** ** Selecting a chain: the calls and the configured chains *)

Lemma step_click_effective (w : World) (from to_ : Chain) (e : Env.t) :
  pickerOpenedWith e w ->
  find (keyDiffers from) (Env.chainList e) = Some to_ ->
  step w (ChainFromButtonClick from)
  = feeEffect
      (balanceEffect
         (withForm
            (fun s =>
               setAmount None
                 (setList None (setChains {| from := from; to := to_ |} s)))
            w)).
Proof.
  intros Hopen Hfind.
  unfold step, handle. rewrite (listOnClick_effective w e from to_ Hopen Hfind).
  unfold runEffects, balanceDepsChanged, feeDepsChanged. simpl.
  replace (Nat.eqb (chainsRef (form w)) (S (chainsRef (form w)))) with false
    by (symmetry; apply Nat.eqb_neq; lia).
  simpl. now rewrite orb_true_r.
Qed.

(** A selection that takes effect starts exactly three calls for the new
    pair, the two balance fetches and the estimation, on top of the
    pending ones; the chain of the "to" side is the one found in the
    environment of the render that opened the picker; the balances shown
    are those fetched before, until the new fetches answer. *)
Theorem chain_click_requests (w : World) (from to_ : Chain) (e : Env.t)
    (t : Token) :
  pickerOpenedWith e w ->
  find (keyDiffers from) (Env.chainList e) = Some to_ ->
  token (form w) = Some t ->
  let w' := step w (ChainFromButtonClick from) in
  inflight w'
  = (S (S (nextId w)), EstimateBridgeGasPrice from to_ t (account w))
    :: (S (nextId w), GetBalanceTo to_ (account w))
    :: (nextId w, GetBalanceFrom from (account w))
    :: inflight w
  /\ balanceFrom (form w') = balanceFrom (form w)
  /\ balanceTo (form w') = balanceTo (form w).
Proof.
  intros Hopen Hfind Ht w'. subst w'.
  rewrite (step_click_effective w from to_ e Hopen Hfind).
  unfold feeEffect, balanceEffect. simpl. rewrite Ht. repeat split.
Qed.

(** Selecting again the chain that is the "from" chain already, the pair
    being the one configured in the environment of the render that opened
    the picker, keeps the pair, and still clears the amount and starts the
    three calls anew. *)
Theorem reselect_same_chain (w : World) (e : Env.t) (c : FormChains)
    (t : Token) :
  pickerOpenedWith e w ->
  chains (form w) = Some c ->
  Env.chains e = (from c, to c) ->
  key (from c) <> key (to c) ->
  token (form w) = Some t ->
  let w' := step w (ChainFromButtonClick (from c)) in
  chains (form w') = Some c
  /\ amount (form w') = None
  /\ inflight w'
     = (S (S (nextId w)),
        EstimateBridgeGasPrice (from c) (to c) t (account w))
       :: (S (nextId w), GetBalanceTo (to c) (account w))
       :: (nextId w, GetBalanceFrom (from c) (account w))
       :: inflight w.
Proof.
  intros Hopen Hc Hcfg Hk Ht w'. subst w'.
  assert (Hfind : find (keyDiffers (from c)) (Env.chainList e) = Some (to c)).
  { unfold Env.chainList. rewrite Hcfg. simpl. unfold keyDiffers.
    rewrite String.eqb_refl. simpl.
    apply not_eq_sym in Hk. apply String.eqb_neq in Hk. now rewrite Hk. }
  rewrite (step_click_effective w (from c) (to c) e Hopen Hfind).
  unfold feeEffect, balanceEffect. simpl. rewrite Ht.
  repeat split. now destruct c.
Qed.

(** With the picker opened in a render whose environment held the chains
    of [getChains], a selection always takes effect, whichever chain is
    passed: the other chain of that environment becomes the "to" chain,
    polygon-hermez for a chain with the key of ethereum and ethereum for
    any other.  Selecting the "to" chain of the default pair thus swaps
    the pair. *)
Theorem configured_chains_swap (w : World) (ethereumRpcUrl
    polygonHermezRpcUrl : string) (polygonHermezNetworkId : Z)
    (tokenETH : Token) (from : Chain) :
  let configured :=
    Constants.getChains ethereumRpcUrl polygonHermezRpcUrl
      polygonHermezNetworkId in
  pickerOpenedWith
    {| Env.chains := configured; Env.tokens_ETH := tokenETH |} w ->
  chains (form (step w (ChainFromButtonClick from)))
  = Some {| from := from;
            to := if String.eqb (key from) "ethereum"
                  then snd configured else fst configured |}
  /\ chains (form (step w (ChainFromButtonClick (fst configured))))
     = Some {| from := fst configured; to := snd configured |}
  /\ chains (form (step w (ChainFromButtonClick (snd configured))))
     = Some {| from := snd configured; to := fst configured |}.
Proof.
  intros configured Hopen.
  assert (H : forall f,
             chains (form (step w (ChainFromButtonClick f)))
             = Some {| from := f;
                       to := if String.eqb (key f) "ethereum"
                             then snd configured else fst configured |}).
  { intros f. rewrite step_form. cbn [handle].
    assert (Hfind : find (keyDiffers f)
                      (Env.chainList
                         {| Env.chains := configured;
                            Env.tokens_ETH := tokenETH |})
                    = Some (if String.eqb (key f) "ethereum"
                            then snd configured else fst configured)).
    { subst configured.
      unfold Env.chainList, keyDiffers, Constants.getChains.
      cbn [Env.chains fst snd find key].
      rewrite (String.eqb_sym (key f) "ethereum").
      destruct (String.eqb_spec "ethereum" (key f)) as [Hf|Hf]; cbn [negb].
      - rewrite <- Hf. reflexivity.
      - reflexivity. }
    now rewrite (listOnClick_effective w _ f _ Hopen Hfind). }
  split; [apply H|]. split; apply H.
Qed.

(** ** What is submitted *)

Lemma handle_submitted (w : World) (e : Event) :
  submitted (handle w e) = submitted w
  \/ exists t, e = FormSubmit
               /\ onFormSubmit (form w) = Some t
               /\ submitted (handle w e) = submitted w ++ [t].
Proof.
  destruct e; simpl; auto.
  - left. now destruct (render (env w) (form w)), (env w).
  - left. now click_cases.
  - destruct (onFormSubmit (form w)) as [t|]; [right; eauto | now left].
  - left. unfold initEffect. simpl. destruct (transaction w); auto.
    now destruct env0.
  - left. unfold initEffect. simpl. destruct transaction0; auto.
    now destruct (env w).
  - left. unfold onGetBalanceSettled.
    destruct (lookup id (inflight w)) as [[]|]; try reflexivity;
      destruct r; reflexivity.
  - left. unfold onEstimateSettled.
    destruct (lookup id (inflight w)) as [[]|]; try reflexivity.
    destruct r as [fee|err]; try reflexivity.
    destruct (isEthersInsufficientFundsError err); reflexivity.
  - left. unfold onParseErrorSettled.
    destruct (lookup id (inflight w)) as [[]|]; try reflexivity;
      destruct r; reflexivity.
Qed.

Lemma step_submitted (w : World) (e : Event) :
  submitted (step w e) = submitted w
  \/ exists t, onFormSubmit (form w) = Some t
               /\ submitted (step w e) = submitted w ++ [t].
Proof.
  unfold step.
  destruct (runEffects_outside w (handle w e)) as (_ & _ & -> & _).
  destruct (handle_submitted w e) as [H|(t & _ & Ht & H)]; eauto.
Qed.

Lemma onFormSubmit_some (s : FormState) (t : TransactionData.t) :
  onFormSubmit s = Some t ->
  chains s = Some {| from := TransactionData.from t;
                     to := TransactionData.to t |}
  /\ estimatedFee s = Successful (TransactionData.estimatedFee t).
Proof.
  unfold onFormSubmit.
  destruct (chains s) as [[f t']|]; [|discriminate].
  destruct (token s); [|discriminate].
  destruct (amount s); [|discriminate].
  destruct (estimatedFee s); try discriminate.
  intros [= <-]. now split.
Qed.

(** From a state whose selected chains differ and from which nothing
    was submitted yet, every record passed to [onSubmit], over every
    sequence of events that does not replace the props, names two
    chains that differ. *)
Theorem submitted_chains_distinct (w : World) (es : list Event) :
  distinctChains (form w) ->
  submitted w = [] ->
  forallb (fun e => negb (replacesProps e)) es = true ->
  Forall (fun t => key (TransactionData.from t) <> key (TransactionData.to t))
    (submitted (run w es)).
Proof.
  intros Hd Hs.
  assert (Hs' : Forall (fun t => key (TransactionData.from t)
                                 <> key (TransactionData.to t)) (submitted w))
    by (rewrite Hs; constructor).
  clear Hs. revert w Hd Hs'.
  induction es as [|e es IH]; intros w Hd Hs Hes; [exact Hs|].
  simpl in Hes. apply andb_true_iff in Hes. destruct Hes as [He Hes].
  apply negb_true_iff in He. simpl. apply IH; auto.
  - now apply step_distinctChains.
  - destruct (step_submitted w e) as [->|(t & Ht & ->)]; [exact Hs|].
    apply Forall_app. split; [exact Hs|]. constructor; [|constructor].
    apply onFormSubmit_some in Ht. destruct Ht as [Hc _].
    destruct Hd as (c & Hc' & Hk). rewrite Hc in Hc'.
    injection Hc' as <-. exact Hk.
Qed.

Lemma step_fee_origin (w : World) (e : Event) (fees : list BigNumber) :
  (forall data, estimatedFee (form w) = Successful data -> In data fees) ->
  Forall (fun t => In (TransactionData.estimatedFee t) fees) (submitted w) ->
  (forall data, estimatedFee (form (step w e)) = Successful data ->
                In data (fees ++ settledFees [e]))
  /\ Forall (fun t => In (TransactionData.estimatedFee t)
                        (fees ++ settledFees [e]))
       (submitted (step w e)).
Proof.
  intros Hfee Hsub. split.
  - intros data. destruct (isEstimateSettled e) eqn:He.
    + destruct e; try discriminate. rewrite step_estimate.
      unfold onEstimateSettled.
      destruct (lookup id (inflight w)) as [[]|];
        try (intros H; apply in_or_app; left; now apply Hfee).
      destruct r as [fee|err]; simpl.
      * intros [= <-]. apply in_or_app. right. now left.
      * destruct (isEthersInsufficientFundsError err); simpl;
          [discriminate|].
        intros H. rewrite app_nil_r. now apply Hfee.
    + rewrite step_form, handle_estimatedFee
        by (intros id r ->; discriminate).
      intros H. apply in_or_app. left. now apply Hfee.
  - assert (Hsub' : Forall (fun t => In (TransactionData.estimatedFee t)
                                       (fees ++ settledFees [e]))
                      (submitted w)).
    { eapply Forall_impl; [|exact Hsub]. simpl. intros t Ht.
      apply in_or_app. now left. }
    destruct (step_submitted w e) as [->|(t & Ht & ->)]; [exact Hsub'|].
    apply Forall_app. split; [exact Hsub'|]. constructor; [|constructor].
    apply onFormSubmit_some in Ht. destruct Ht as [_ Ht].
    apply in_or_app. left. now apply Hfee.
Qed.

Lemma run_fee_origin (w : World) (es : list Event) (fees : list BigNumber) :
  (forall data, estimatedFee (form w) = Successful data -> In data fees) ->
  Forall (fun t => In (TransactionData.estimatedFee t) fees) (submitted w) ->
  Forall (fun t => In (TransactionData.estimatedFee t)
                     (fees ++ settledFees es))
    (submitted (run w es)).
Proof.
  revert w fees. induction es as [|e es IH]; intros w fees Hfee Hsub.
  - simpl. now rewrite app_nil_r.
  - destruct (step_fee_origin w e fees Hfee Hsub) as [Hfee' Hsub'].
    specialize (IH (step w e) (fees ++ settledFees [e]) Hfee' Hsub').
    simpl. simpl in IH. rewrite <- app_assoc in IH.
    unfold settledFees in *. simpl in *. now rewrite app_nil_r in IH.
Qed.

(** From the mount on, the fee in every record passed to [onSubmit] is a
    fee that one of the estimations delivered on completing successfully
    before: never a default, and never the fee of the prior transaction
    the form was mounted with. *)
Theorem submitted_fee_was_estimated (env0 : option Env.t)
    (t : option TransactionData.t) (acc : string) (es : list Event) :
  Forall (fun record =>
            In (TransactionData.estimatedFee record) (settledFees es))
    (submitted (run (mount env0 t acc) es)).
Proof.
  apply (run_fee_origin (mount env0 t acc) es []).
  - unfold mount. rewrite runEffects_form.
    unfold initEffect. simpl. destruct t; [discriminate|].
    destruct env0; discriminate.
  - unfold mount.
    destruct (runEffects_outside (unmounted env0 t acc)
                (initEffect (unmounted env0 t acc))) as (_ & _ & -> & _).
    unfold initEffect. simpl. destruct t; [constructor|].
    destruct env0; constructor.
Qed.

(** ** The handler the picker holds *)

Lemma runEffects_env (old new : World) :
  env (runEffects old new) = env new.
Proof.
  unfold runEffects, balanceEffect, feeEffect.
  destruct (balanceDepsChanged old new), (feeDepsChanged old new);
    destruct (chains (form new)) eqn:Hc; simpl; rewrite ?Hc;
    destruct (token (form new)); reflexivity.
Qed.

Lemma pickerOpenedWith_env_change (w : World) (e e' : Env.t) :
  pickerOpenedWith e w ->
  pickerOpenedWith e (step w (EnvChanged (Some e'))).
Proof.
  intros (Hr & l & Hl & He & Hc). unfold pickerOpenedWith.
  rewrite step_form. unfold step. rewrite runEffects_env.
  unfold render in Hr.
  destruct (env w); [|now elim Hr].
  destruct (chains (form w)) eqn:Hch; [|now elim Hr].
  destruct (token (form w)) eqn:Ht; [|now elim Hr].
  cbn [handle]. unfold initEffect. cbn [transaction env withEnv].
  destruct (transaction w); simpl; (split; [discriminate|]);
    exists l; repeat split; assumption.
Qed.

(** The picker keeps the handler of the render that opened it.  When the
    environment is replaced while the picker is open, the selection made
    afterwards still takes the "to" chain from the chains of the
    environment the form had when the picker was opened, whatever the new
    environment configures. *)
Theorem stored_handler_reads_old_env (w : World) (e e' : Env.t)
    (from to_ : Chain) :
  env w = Some e ->
  render (env w) (form w) <> None ->
  find (keyDiffers from) (Env.chainList e) = Some to_ ->
  let w' := run w [ChainSelectorClick;
                   EnvChanged (Some e');
                   ChainFromButtonClick from] in
  env w' = Some e'
  /\ chains (form w') = Some {| from := from; to := to_ |}.
Proof.
  intros He Hr Hfind w'. subst w'. simpl.
  pose proof (opening_captures_env w e He Hr) as Hopen.
  apply (pickerOpenedWith_env_change _ e e') in Hopen.
  set (w2 := step (step w ChainSelectorClick) (EnvChanged (Some e'))) in *.
  assert (Henv : env w2 = Some e').
  { subst w2. unfold step at 1. rewrite runEffects_env.
    cbn [handle]. unfold initEffect. cbn [transaction env withEnv].
    now destruct (transaction (step w ChainSelectorClick)). }
  split.
  - unfold step. rewrite runEffects_env. cbn [handle].
    now rewrite (listOnClick_effective w2 e from to_ Hopen Hfind).
  - rewrite step_form. cbn [handle].
    now rewrite (listOnClick_effective w2 e from to_ Hopen Hfind).
Qed.

End Properties.

(** * The properties on the example deployment *)

Ltac picker_is_open :=
  split;
  [ vm_compute; discriminate
  | eexists; split;
    [ reflexivity | split; [ reflexivity | vm_compute; discriminate ] ] ].

(** ** C1 *)

(** With an amount of 5 typed in and the fee estimate still pending, the
    submit button is enabled, which the gate of the specification is
    not. *)
Lemma submit_enabled_while_pending :
  let s := form (Example.run Example.mounted [InputChange (Some 5) None]) in
  amount s = Some 5
  /\ inputError s = None
  /\ estimatedFee s = Pending
  /\ submitDisabled s = false
  /\ specSubmitEnabled s = false.
Proof. repeat split. Qed.

Lemma submit_enabled_iff_witness :
  let s := form (Example.run Example.mounted [InputChange (Some 5) None]) in
  unsignedAmount s
  /\ (submitDisabled s = false <->
      (exists a, amount s = Some a /\ 0 < a)
      /\ inputError s = None
      /\ status (estimatedFee s) <> failed).
Proof.
  assert (Hu : unsignedAmount
                 (form (Example.run Example.mounted [InputChange (Some 5) None]))).
  { intros a Ha. vm_compute in Ha. injection Ha as <-. lia. }
  split; [exact Hu | exact (submit_enabled_iff _ Hu)].
Defined.

(** ** C2 *)

(** The fee for alice's tuple has arrived as 7; the account then changes
    to bob.  The estimation for bob's tuple is pending, and [estimatedFee]
    still shows the 7 of alice's tuple instead of pending. *)
Lemma no_reset_on_tuple_change :
  let w := Example.run Example.mounted [EstimateSettled 2%nat (inl 7)] in
  let w' := Example.step w (AccountChanged Example.bob) in
  account w = Example.alice
  /\ account w' = Example.bob
  /\ hd_error (inflight w')
     = Some (5%nat,
             EstimateBridgeGasPrice Example.ethereum Example.polygonHermez
               Constants.ETH_TOKEN Example.bob)
  /\ estimatedFee (form w') = Successful 7
  /\ estimatedFee (form w') <> Pending.
Proof. repeat split. discriminate. Qed.

Lemma tuple_change_keeps_estimatedFee_witness :
  let w := Example.run Example.mounted [EstimateSettled 2%nat (inl 7)] in
  let e := AccountChanged Example.bob in
  let w' := Example.step w e in
  feeDepsChanged w (handle Example.isInsufficientFunds w e) = true
  /\ estimatedFee (form w') = estimatedFee (form w)
  /\ (forall c t,
        chains (form w') = Some c ->
        token (form w') = Some t ->
        exists id,
          hd_error (inflight w')
          = Some (id, EstimateBridgeGasPrice (from c) (to c) t (account w'))).
Proof.
  split; [reflexivity|].
  apply (tuple_change_keeps_estimatedFee Example.Rejection
           Example.isInsufficientFunds).
  reflexivity.
Defined.

(** ** C3 *)

(** Two estimations are pending: request 2 for alice's tuple and, started
    after it, request 5 for bob's.  The newer one completes with 2, then
    the older one with 1: [estimatedFee] ends as the 1 of the older
    request, while the account is bob. *)
Lemma stale_completion_is_written :
  let w := Example.run Example.mounted [AccountChanged Example.bob] in
  let w' := Example.run w [EstimateSettled 5%nat (inl 2);
                           EstimateSettled 2%nat (inl 1)] in
  lookup 2%nat (inflight w)
  = Some (EstimateBridgeGasPrice Example.ethereum Example.polygonHermez
            Constants.ETH_TOKEN Example.alice)
  /\ lookup 5%nat (inflight w)
     = Some (EstimateBridgeGasPrice Example.ethereum Example.polygonHermez
               Constants.ETH_TOKEN Example.bob)
  /\ account w' = Example.bob
  /\ estimatedFee (form w') = Successful 1.
Proof. repeat split. Qed.

Lemma every_completion_is_written_witness :
  let w := Example.run Example.mounted
             [AccountChanged Example.bob; EstimateSettled 5%nat (inl 2)] in
  lookup 2%nat (inflight w)
  = Some (EstimateBridgeGasPrice Example.ethereum Example.polygonHermez
            Constants.ETH_TOKEN Example.alice)
  /\ estimatedFee (form (Example.step w (EstimateSettled 2%nat (inl 1))))
     = Successful 1.
Proof.
  split; [reflexivity|].
  apply (every_completion_is_written Example.Rejection
           Example.isInsufficientFunds _ 2%nat Example.ethereum
           Example.polygonHermez Constants.ETH_TOKEN Example.alice (inl 1)).
  reflexivity.
Defined.

(** ** C4 *)

(** The estimation fails with a network error: [estimatedFee] stays
    pending, and is still pending after the one notification. *)
Lemma generic_failure_leaves_pending :
  let w1 := Example.step Example.mounted
              (EstimateSettled 2%nat (inr "network error")) in
  let w2 := Example.step w1
              (ParseErrorSettled 3%nat (inl "Network error, try again")) in
  Example.isInsufficientFunds "network error" = false
  /\ estimatedFee (form w1) = Pending
  /\ snackbar w1 = []
  /\ estimatedFee (form w2) = Pending
  /\ status (estimatedFee (form w2)) <> failed.
Proof. repeat split. discriminate. Qed.

Lemma generic_failure_is_notified_witness :
  let w := Example.mounted in
  let w1 := Example.step w (EstimateSettled 2%nat (inr "network error")) in
  lookup 2%nat (inflight w)
  = Some (EstimateBridgeGasPrice Example.ethereum Example.polygonHermez
            Constants.ETH_TOKEN Example.alice)
  /\ Example.isInsufficientFunds "network error" = false
  /\ estimatedFee (form w1) = estimatedFee (form w)
  /\ snackbar w1 = snackbar w
  /\ lookup (nextId w) (inflight w1) = Some (ParseError "network error")
  /\ forall errorMessage,
       let w2 := Example.step w1
                   (ParseErrorSettled (nextId w) (inl errorMessage)) in
       estimatedFee (form w2) = estimatedFee (form w)
       /\ snackbar w2
          = snackbar w ++ [{| msgType := "error-msg"; text := errorMessage |}].
Proof.
  split; [reflexivity|]. split; [reflexivity|].
  apply (generic_failure_is_notified Example.Rejection
           Example.isInsufficientFunds Example.mounted 2%nat Example.ethereum
           Example.polygonHermez Constants.ETH_TOKEN Example.alice
           "network error"); reflexivity.
Defined.

(** ** C5 *)

(** The fee has arrived as 7 and an amount was typed in that the input
    refused; the picker is opened.  After polygon-hermez is selected as
    the "from" chain, the amount is cleared, [inputError] and the fee of
    the previous pair are still there. *)
Lemma chain_click_keeps_error_and_fee :
  let w := Example.run Example.mounted
             [EstimateSettled 2%nat (inl 7);
              InputChange (Some 5) (Some "Insufficient balance");
              ChainSelectorClick] in
  let w' := Example.step w (ChainFromButtonClick Example.polygonHermez) in
  chains (form w')
  = Some {| from := Example.polygonHermez; to := Example.ethereum |}
  /\ amount (form w') = None
  /\ inputError (form w') = Some "Insufficient balance"
  /\ estimatedFee (form w') = Successful 7
  /\ estimatedFee (form w') <> Pending.
Proof. repeat split. discriminate. Qed.

Lemma chain_click_effect_witness :
  let w := Example.run Example.mounted
             [EstimateSettled 2%nat (inl 7);
              InputChange (Some 5) (Some "Insufficient balance");
              ChainSelectorClick] in
  let from_ := Example.polygonHermez in
  let to_ := Example.ethereum in
  let t := Constants.ETH_TOKEN in
  let w' := Example.step w (ChainFromButtonClick from_) in
  pickerOpenedWith Example.env w
  /\ find (keyDiffers from_) (Env.chainList Example.env) = Some to_
  /\ token (form w) = Some t
  /\ chains (form w') = Some {| from := from_; to := to_ |}
  /\ key to_ <> key from_
  /\ (key from_ = key (fst (Env.chains Example.env))
      \/ key from_ = key (snd (Env.chains Example.env)) ->
      forall c', In c' (Env.chainList Example.env) ->
                 key c' <> key from_ -> c' = to_)
  /\ amount (form w') = None
  /\ list_ (form w') = None
  /\ inputError (form w') = inputError (form w)
  /\ token (form w') = token (form w)
  /\ estimatedFee (form w') = estimatedFee (form w)
  /\ exists id,
       hd_error (inflight w')
       = Some (id, EstimateBridgeGasPrice from_ to_ t (account w)).
Proof.
  assert (Hopen : pickerOpenedWith Example.env
                    (Example.run Example.mounted
                       [EstimateSettled 2%nat (inl 7);
                        InputChange (Some 5) (Some "Insufficient balance");
                        ChainSelectorClick])).
  { picker_is_open. }
  split; [exact Hopen|]. split; [reflexivity|]. split; [reflexivity|].
  apply (chain_click_effect Example.Rejection Example.isInsufficientFunds
           _ Example.polygonHermez Example.ethereum Example.env
           Constants.ETH_TOKEN); [exact Hopen | reflexivity | reflexivity].
Defined.

(** ** C6 *)

(** The message of the failed state is the one of the source, not the
    one the specification quotes. *)
Lemma insufficient_funds_message_differs :
  let w1 := Example.step Example.mounted
              (EstimateSettled 2%nat (inr "INSUFFICIENT_FUNDS")) in
  Example.isInsufficientFunds "INSUFFICIENT_FUNDS" = true
  /\ estimatedFee (form w1)
     = Failed "You don't have enough ETH to pay for the fees"
  /\ estimatedFee (form w1) <> Failed specInsufficientFundsMessage
  /\ snackbar w1 = [].
Proof. repeat split. discriminate. Qed.

Lemma insufficient_funds_is_inline_witness :
  let w := Example.mounted in
  let w1 := Example.step w (EstimateSettled 2%nat (inr "INSUFFICIENT_FUNDS")) in
  lookup 2%nat (inflight w)
  = Some (EstimateBridgeGasPrice Example.ethereum Example.polygonHermez
            Constants.ETH_TOKEN Example.alice)
  /\ Example.isInsufficientFunds "INSUFFICIENT_FUNDS" = true
  /\ estimatedFee (form w1)
     = Failed "You don't have enough ETH to pay for the fees"
  /\ snackbar w1 = snackbar w
  /\ inflight w1 = inflight (settled 2%nat w)
  /\ submitDisabled (form w1) = true.
Proof.
  split; [reflexivity|]. split; [reflexivity|].
  apply (insufficient_funds_is_inline Example.Rejection
           Example.isInsufficientFunds Example.mounted 2%nat Example.ethereum
           Example.polygonHermez Constants.ETH_TOKEN Example.alice
           "INSUFFICIENT_FUNDS"); reflexivity.
Defined.

(** ** C7 *)

Lemma submit_emits_resolved_fee_witness :
  let s := form (Example.run Example.mounted
                   [EstimateSettled 2%nat (inl 7);
                    InputChange (Some 5) None]) in
  let t := {| TransactionData.token := Constants.ETH_TOKEN;
              TransactionData.from := Example.ethereum;
              TransactionData.to := Example.polygonHermez;
              TransactionData.amount := 5;
              TransactionData.estimatedFee := 7 |} in
  submitDisabled s = false
  /\ onFormSubmit s = Some t
  /\ amount s = Some (TransactionData.amount t)
  /\ TransactionData.amount t <> 0
  /\ inputError s = None
  /\ estimatedFee s = Successful (TransactionData.estimatedFee t)
  /\ token s = Some (TransactionData.token t)
  /\ chains s = Some {| from := TransactionData.from t;
                        to := TransactionData.to t |}.
Proof.
  split; [reflexivity|]. split; [reflexivity|].
  apply submit_emits_resolved_fee; reflexivity.
Defined.

(** ** C8 *)

(** A network error of the estimation is not turned into the failed
    state, and a failed balance fetch ends as an unhandled rejection. *)
Lemma failures_not_all_converted :
  let w1 := Example.step Example.mounted
              (EstimateSettled 2%nat (inr "network error")) in
  let w2 := Example.step Example.mounted
              (GetBalanceSettled 0%nat (inr "timeout")) in
  estimatedFee (form w1) = Pending
  /\ form w1 = form Example.mounted
  /\ unhandled Example.mounted = []
  /\ unhandled w2 = ["timeout"].
Proof. repeat split. Qed.

Lemma async_failure_handling_witness :
  let w := Example.mounted in
  let w' := Example.step w (EstimateSettled 2%nat (inr "network error")) in
  lookup 2%nat (inflight w)
  = Some (EstimateBridgeGasPrice Example.ethereum Example.polygonHermez
            Constants.ETH_TOKEN Example.alice)
  /\ unhandled w' = unhandled w
  /\ form w' = form w
  /\ lookup (nextId w) (inflight w') = Some (ParseError "network error").
Proof.
  split; [reflexivity|].
  apply (async_failure_handling Example.Rejection Example.isInsufficientFunds
           Example.mounted 2%nat
           (EstimateBridgeGasPrice Example.ethereum Example.polygonHermez
              Constants.ETH_TOKEN Example.alice) "network error").
  reflexivity.
Defined.

(** ** C9 *)

(** The form mounted on the configured chains selects two chains that
    differ. *)
Lemma mounted_distinctChains : distinctChains (form Example.mounted).
Proof.
  exists {| from := Example.ethereum; to := Example.polygonHermez |}.
  split; [reflexivity | discriminate].
Defined.

Lemma to_never_equals_from_witness :
  let es := [ChainSelectorClick;
             ChainFromButtonClick Example.polygonHermez;
             InputChange (Some 5) None;
             ChainSelectorClick;
             ChainFromButtonClick Example.polygonHermez;
             ChainSelectorClick;
             ChainFromButtonClick Example.ethereum] in
  distinctChains (form Example.mounted)
  /\ forallb (fun e => negb (replacesProps e)) es = true
  /\ Forall (fun w' => distinctChains (form w'))
       (trace Example.isInsufficientFunds Example.mounted es).
Proof.
  split; [exact mounted_distinctChains|]. split; [reflexivity|].
  apply to_never_equals_from; [exact mounted_distinctChains | reflexivity].
Defined.

(** ** C10 *)

Lemma chain_click_noop_witness :
  let w := Example.run (mount (Some Example.degenerateEnv) None Example.alice)
             [ChainSelectorClick] in
  let list :=
    {| type := chain_list;
       items := Env.chainList Example.degenerateEnv;
       onClick :=
         {| capturedEnv := Some Example.degenerateEnv;
            capturedChains :=
              Some {| from := Example.ethereum; to := Example.ethereum |} |} |}
  in
  list_ (form w) = Some list
  /\ (capturedEnv (onClick list) = None
      \/ capturedChains (onClick list) = None
      \/ (exists e, capturedEnv (onClick list) = Some e
                    /\ forall c, In c (Env.chainList e)
                                 -> key c = key Example.ethereum))
  /\ Example.step w (ChainFromButtonClick Example.ethereum) = w.
Proof.
  assert (H : forall c, In c (Env.chainList Example.degenerateEnv)
                        -> key c = key Example.ethereum).
  { intros c [<-|[<-|[]]]; reflexivity. }
  split; [reflexivity|]. split.
  - right. right. exists Example.degenerateEnv. split; [reflexivity | exact H].
  - apply (chain_click_noop Example.Rejection Example.isInsufficientFunds
             _ {| type := chain_list;
                  items := Env.chainList Example.degenerateEnv;
                  onClick :=
                    {| capturedEnv := Some Example.degenerateEnv;
                       capturedChains :=
                         Some {| from := Example.ethereum;
                                 to := Example.ethereum |} |} |});
      [reflexivity|].
    right. right. exists Example.degenerateEnv. split; [reflexivity | exact H].
Defined.

(** * The transaction details view *)

Section TransactionDetailsProperties.

Variable Demo : Type.
Variable idToString : Demo -> string.
Variable status : Demo -> string.
Variable demoData : list Demo.

Local Abbreviation findData :=
  (TransactionDetails.findData Demo idToString demoData).

Lemma findData_none (transactionId : option string) :
  (forall demo, In demo demoData -> transactionId <> Some (idToString demo)) ->
  findData transactionId = None.
Proof.
  unfold TransactionDetails.findData.
  induction demoData as [|demo l IH]; intros H; [reflexivity|]. simpl.
  destruct transactionId as [id|].
  - destruct (String.eqb_spec (idToString demo) id) as [Heq|Hne].
    + elim (H demo (or_introl eq_refl)). now rewrite Heq.
    + apply IH. intros d Hd. apply H. now right.
  - apply IH. intros d Hd. apply H. now right.
Qed.

(** When no entry of the demo data has the requested id, and so whenever
    the route carries no id at all, the view renders nothing and asks for
    the activity page, replacing the current history entry. *)
Theorem unknown_transaction_redirects (transactionId : option string) :
  (forall demo, In demo demoData -> transactionId <> Some (idToString demo)) ->
  TransactionDetails.render Demo idToString status demoData transactionId
  = (Some {| TransactionDetails.to := "/activity";
             TransactionDetails.replace := true |}, None).
Proof.
  intros H. unfold TransactionDetails.render.
  now rewrite (findData_none transactionId H).
Qed.

(** When an entry is found, it is an entry of the demo data with the
    requested id, the view asks for no navigation, and what it shows
    follows the status of the entry: "initiated" shows the time as being
    estimated and the "Finalise" button disabled with its spinner;
    "on-hold" shows the button enabled without spinner; every other
    status shows no button. *)
Theorem details_of_known_transaction (transactionId : option string)
    (data : Demo) :
  findData transactionId = Some data ->
  In data demoData
  /\ transactionId = Some (idToString data)
  /\ exists view,
       TransactionDetails.render Demo idToString status demoData
         transactionId
       = (None, Some view)
       /\ (TransactionDetails.estimatingTime view = true
           <-> status data = "initiated")
       /\ (TransactionDetails.finalise view
           = Some {| TransactionDetails.disabled := true;
                     TransactionDetails.spinner := true |}
           <-> status data = "initiated")
       /\ (TransactionDetails.finalise view
           = Some {| TransactionDetails.disabled := false;
                     TransactionDetails.spinner := false |}
           <-> status data = "on-hold")
       /\ (TransactionDetails.finalise view = None
           <-> status data <> "initiated" /\ status data <> "on-hold").
Proof.
  intros Hfind. pose proof Hfind as Hsome.
  unfold TransactionDetails.findData in Hsome. apply find_some in Hsome.
  destruct Hsome as [Hin Hid]. split; [exact Hin|]. split.
  - destruct transactionId as [id|]; [|discriminate].
    apply String.eqb_eq in Hid. now rewrite Hid.
  - unfold TransactionDetails.render. rewrite Hfind. eexists.
    split; [reflexivity|]. cbn [TransactionDetails.estimatingTime
                                 TransactionDetails.finalise].
    destruct (String.eqb_spec (status data) "initiated") as [Hi|Hi];
      cbn [orb].
    + rewrite Hi. repeat split; auto; try discriminate.
      intros [H _]. now elim H.
    + destruct (String.eqb_spec (status data) "on-hold") as [Ho|Ho].
      * repeat split; auto; try discriminate; try congruence.
        intros [_ H]. now elim H.
      * repeat split; auto; try discriminate; try congruence.
Qed.

End TransactionDetailsProperties.

(** * The further properties on the example deployment *)

Lemma error_shown_disables_submit_witness :
  let s := form (Example.run Example.mounted
                   [InputChange (Some 5) (Some "Insufficient balance")]) in
  shownErrors s <> [] /\ submitDisabled s = true.
Proof.
  assert (H : shownErrors
                (form (Example.run Example.mounted
                         [InputChange (Some 5) (Some "Insufficient balance")]))
              <> []).
  { vm_compute. discriminate. }
  split; [exact H | exact (error_shown_disables_submit _ H)].
Defined.

Lemma only_estimation_writes_fee_witness :
  let w := Example.run Example.mounted [EstimateSettled 2%nat (inl 7)] in
  let es := [ChainSelectorClick;
             ChainFromButtonClick Example.polygonHermez;
             AccountChanged Example.bob;
             InputChange (Some 5) None;
             GetBalanceSettled 0%nat (inl 100);
             FormSubmit] in
  forallb (fun e => negb (isEstimateSettled e)) es = true
  /\ estimatedFee (form (Example.run w es)) = estimatedFee (form w).
Proof.
  split; [reflexivity|].
  apply (only_estimation_writes_fee Example.Rejection
           Example.isInsufficientFunds).
  reflexivity.
Defined.

Lemma account_change_witness :
  let w := Example.mounted in
  let c := {| from := Example.ethereum; to := Example.polygonHermez |} in
  let w' := Example.step w (AccountChanged Example.bob) in
  Example.bob <> account w
  /\ chains (form w) = Some c
  /\ token (form w) = Some Constants.ETH_TOKEN
  /\ form w' = form w
  /\ account w' = Example.bob
  /\ inflight w'
     = (S (S (nextId w)),
        EstimateBridgeGasPrice (from c) (to c) Constants.ETH_TOKEN Example.bob)
       :: (S (nextId w), GetBalanceTo (to c) Example.bob)
       :: (nextId w, GetBalanceFrom (from c) Example.bob)
       :: inflight w.
Proof.
  split; [discriminate|]. split; [reflexivity|]. split; [reflexivity|].
  apply (account_change Example.Rejection Example.isInsufficientFunds
           Example.mounted Example.bob
           {| from := Example.ethereum; to := Example.polygonHermez |}
           Constants.ETH_TOKEN);
    [discriminate | reflexivity | reflexivity].
Defined.

Lemma submit_without_fee_noop_witness :
  let w := Example.run Example.mounted [InputChange (Some 5) None] in
  (forall data, estimatedFee (form w) <> Successful data)
  /\ submitDisabled (form w) = false
  /\ Example.step w FormSubmit = w.
Proof.
  split; [intros data; vm_compute; discriminate|]. split; [reflexivity|].
  apply (submit_without_fee_noop Example.Rejection
           Example.isInsufficientFunds).
  intros data. vm_compute. discriminate.
Defined.

Lemma submit_twice_witness :
  let w := Example.run Example.mounted
             [EstimateSettled 2%nat (inl 7); InputChange (Some 5) None] in
  let t := {| TransactionData.token := Constants.ETH_TOKEN;
              TransactionData.from := Example.ethereum;
              TransactionData.to := Example.polygonHermez;
              TransactionData.amount := 5;
              TransactionData.estimatedFee := 7 |} in
  let w' := Example.run w [FormSubmit; FormSubmit] in
  onFormSubmit (form w) = Some t
  /\ form w' = form w
  /\ inflight w' = inflight w
  /\ submitted w' = submitted w ++ [t; t].
Proof.
  split; [reflexivity|].
  apply (submit_twice Example.Rejection Example.isInsufficientFunds).
  reflexivity.
Defined.

Lemma picker_open_close_witness :
  list_ (form Example.mounted) = None
  /\ Example.run Example.mounted [ChainSelectorClick; ListClose]
     = Example.mounted.
Proof.
  split; [reflexivity|].
  apply (picker_open_close Example.Rejection Example.isInsufficientFunds).
  reflexivity.
Defined.

Lemma pending_never_withdrawn_witness :
  let w := Example.run (mount (Some Example.env) None Example.alice) [] in
  let es := [ChainSelectorClick;
             ChainFromButtonClick Example.polygonHermez;
             AccountChanged Example.bob;
             EstimateSettled 5%nat (inl 2);
             EnvChanged None] in
  let r := EstimateBridgeGasPrice Example.ethereum Example.polygonHermez
             Constants.ETH_TOKEN Example.alice in
  lookup 2%nat (inflight w) = Some r
  /\ Forall (fun e => settles e <> Some 2%nat) es
  /\ lookup 2%nat (inflight (Example.run w es)) = Some r.
Proof.
  assert (Hes : Forall (fun e : Event Example.Rejection =>
                          settles e <> Some 2%nat)
                  [ChainSelectorClick;
                   ChainFromButtonClick Example.polygonHermez;
                   AccountChanged Example.bob;
                   EstimateSettled 5%nat (inl 2);
                   EnvChanged None]).
  { repeat constructor; discriminate. }
  split; [reflexivity|]. split; [exact Hes|].
  apply (pending_never_withdrawn Example.Rejection
           Example.isInsufficientFunds (Some Example.env) None Example.alice
           []); [reflexivity | exact Hes].
Defined.

Lemma balances_independent_witness :
  let w := Example.run (mount (Some Example.env) None Example.alice) [] in
  let w' := Example.run w [GetBalanceSettled 0%nat (inr "timeout");
                           GetBalanceSettled 1%nat (inl 100)] in
  lookup 0%nat (inflight w)
  = Some (GetBalanceFrom Example.ethereum Example.alice)
  /\ lookup 1%nat (inflight w)
     = Some (GetBalanceTo Example.polygonHermez Example.alice)
  /\ balanceTo (form w') = Some 100
  /\ balanceFrom (form w') = balanceFrom (form w).
Proof.
  split; [reflexivity|]. split; [reflexivity|].
  apply (balances_independent Example.Rejection Example.isInsufficientFunds
           (Some Example.env) None Example.alice [] 0%nat 1%nat
           Example.ethereum Example.polygonHermez
           Example.alice Example.alice "timeout" 100); reflexivity.
Defined.

Lemma submitted_chains_distinct_witness :
  let es := [EstimateSettled 2%nat (inl 7);
             InputChange (Some 5) None;
             FormSubmit;
             ChainSelectorClick;
             ChainFromButtonClick Example.polygonHermez;
             InputChange (Some 3) None;
             EstimateSettled 5%nat (inl 9);
             FormSubmit] in
  distinctChains (form Example.mounted)
  /\ submitted Example.mounted = []
  /\ forallb (fun e => negb (replacesProps e)) es = true
  /\ List.length (submitted (Example.run Example.mounted es)) = 2%nat
  /\ Forall (fun t => key (TransactionData.from t)
                      <> key (TransactionData.to t))
       (submitted (Example.run Example.mounted es)).
Proof.
  split; [exact mounted_distinctChains|]. split; [reflexivity|].
  split; [reflexivity|]. split; [reflexivity|].
  apply (submitted_chains_distinct Example.Rejection
           Example.isInsufficientFunds);
    [exact mounted_distinctChains | reflexivity | reflexivity].
Defined.

Lemma chains_never_unset_witness :
  let es := [EnvChanged None;
             ChainSelectorClick;
             ChainFromButtonClick Example.polygonHermez;
             TransactionChanged None] in
  chains (form Example.mounted) <> None
  /\ chains (form (Example.run Example.mounted es)) <> None.
Proof.
  assert (H : chains (form Example.mounted) <> None).
  { vm_compute. discriminate. }
  split; [exact H|].
  apply (chains_never_unset Example.Rejection Example.isInsufficientFunds).
  exact H.
Defined.

Lemma chain_click_requests_witness :
  let w := Example.run Example.mounted
             [GetBalanceSettled 0%nat (inl 100); ChainSelectorClick] in
  let from_ := Example.polygonHermez in
  let to_ := Example.ethereum in
  let w' := Example.step w (ChainFromButtonClick from_) in
  pickerOpenedWith Example.env w
  /\ find (keyDiffers from_) (Env.chainList Example.env) = Some to_
  /\ token (form w) = Some Constants.ETH_TOKEN
  /\ inflight w'
     = (S (S (nextId w)),
        EstimateBridgeGasPrice from_ to_ Constants.ETH_TOKEN (account w))
       :: (S (nextId w), GetBalanceTo to_ (account w))
       :: (nextId w, GetBalanceFrom from_ (account w))
       :: inflight w
  /\ balanceFrom (form w') = balanceFrom (form w)
  /\ balanceTo (form w') = balanceTo (form w).
Proof.
  assert (Hopen : pickerOpenedWith Example.env
                    (Example.run Example.mounted
                       [GetBalanceSettled 0%nat (inl 100);
                        ChainSelectorClick])).
  { picker_is_open. }
  split; [exact Hopen|]. split; [reflexivity|]. split; [reflexivity|].
  apply (chain_click_requests Example.Rejection Example.isInsufficientFunds
           _ Example.polygonHermez Example.ethereum Example.env
           Constants.ETH_TOKEN); [exact Hopen | reflexivity | reflexivity].
Defined.

Lemma reselect_same_chain_witness :
  let w := Example.run Example.mounted
             [InputChange (Some 5) None; ChainSelectorClick] in
  let c := {| from := Example.ethereum; to := Example.polygonHermez |} in
  let w' := Example.step w (ChainFromButtonClick (from c)) in
  pickerOpenedWith Example.env w
  /\ chains (form w) = Some c
  /\ Env.chains Example.env = (from c, to c)
  /\ key (from c) <> key (to c)
  /\ token (form w) = Some Constants.ETH_TOKEN
  /\ amount (form w) = Some 5
  /\ chains (form w') = Some c
  /\ amount (form w') = None
  /\ inflight w'
     = (S (S (nextId w)),
        EstimateBridgeGasPrice (from c) (to c) Constants.ETH_TOKEN (account w))
       :: (S (nextId w), GetBalanceTo (to c) (account w))
       :: (nextId w, GetBalanceFrom (from c) (account w))
       :: inflight w.
Proof.
  assert (Hopen : pickerOpenedWith Example.env
                    (Example.run Example.mounted
                       [InputChange (Some 5) None; ChainSelectorClick])).
  { picker_is_open. }
  split; [exact Hopen|]. split; [reflexivity|]. split; [reflexivity|].
  split; [discriminate|]. split; [reflexivity|]. split; [reflexivity|].
  apply (reselect_same_chain Example.Rejection Example.isInsufficientFunds
           _ Example.env
           {| from := Example.ethereum; to := Example.polygonHermez |}
           Constants.ETH_TOKEN);
    [exact Hopen | reflexivity | reflexivity | discriminate | reflexivity].
Defined.

Lemma configured_chains_swap_witness :
  let w := Example.run Example.mounted [ChainSelectorClick] in
  pickerOpenedWith
    {| Env.chains := Example.configured;
       Env.tokens_ETH := Constants.ETH_TOKEN |} w
  /\ chains (form (Example.step w (ChainFromButtonClick Example.polygonHermez)))
     = Some {| from := Example.polygonHermez; to := Example.ethereum |}.
Proof.
  assert (Hopen : pickerOpenedWith
                    {| Env.chains := Example.configured;
                       Env.tokens_ETH := Constants.ETH_TOKEN |}
                    (Example.run Example.mounted [ChainSelectorClick])).
  { picker_is_open. }
  split; [exact Hopen|].
  apply (configured_chains_swap Example.Rejection Example.isInsufficientFunds
           _ "http://localhost:8545" "http://localhost:8123" 1
           Constants.ETH_TOKEN Example.polygonHermez). exact Hopen.
Defined.

Lemma unknown_transaction_redirects_witness :
  let demoData := [("1", "initiated"); ("2", "on-hold"); ("3", "completed")] in
  (forall demo, In demo demoData -> Some "7" <> Some (fst demo))
  /\ TransactionDetails.render (string * string) fst snd demoData (Some "7")
     = (Some {| TransactionDetails.to := "/activity";
                TransactionDetails.replace := true |}, None).
Proof.
  assert (H : forall demo : string * string,
             In demo [("1", "initiated"); ("2", "on-hold"); ("3", "completed")]
             -> Some "7" <> Some (fst demo)).
  { intros demo [<-|[<-|[<-|[]]]]; discriminate. }
  split; [exact H|].
  exact (unknown_transaction_redirects (string * string) fst snd _ (Some "7") H).
Defined.

Lemma details_of_known_transaction_witness :
  let demoData := [("1", "initiated"); ("2", "on-hold"); ("3", "completed")] in
  let data := ("2", "on-hold") in
  TransactionDetails.findData (string * string) fst demoData (Some "2")
  = Some data
  /\ exists view,
       TransactionDetails.render (string * string) fst snd demoData (Some "2")
       = (None, Some view)
       /\ TransactionDetails.finalise view
          = Some {| TransactionDetails.disabled := false;
                    TransactionDetails.spinner := false |}.
Proof.
  split; [reflexivity|].
  destruct (details_of_known_transaction (string * string) fst snd
              [("1", "initiated"); ("2", "on-hold"); ("3", "completed")]
              (Some "2") ("2", "on-hold") eq_refl)
    as (_ & _ & view & Hr & _ & _ & Hon & _).
  exists view. split; [exact Hr|]. now apply Hon.
Defined.

Lemma stored_handler_reads_old_env_witness :
  let w := Example.mounted in
  let w' := Example.run w [ChainSelectorClick;
                           EnvChanged (Some Example.degenerateEnv);
                           ChainFromButtonClick Example.ethereum] in
  env w = Some Example.env
  /\ render (env w) (form w) <> None
  /\ find (keyDiffers Example.ethereum) (Env.chainList Example.env)
     = Some Example.polygonHermez
  /\ find (keyDiffers Example.ethereum)
       (Env.chainList Example.degenerateEnv) = None
  /\ env w' = Some Example.degenerateEnv
  /\ chains (form w')
     = Some {| from := Example.ethereum; to := Example.polygonHermez |}.
Proof.
  assert (Hr : render (env Example.mounted) (form Example.mounted) <> None).
  { vm_compute. discriminate. }
  split; [reflexivity|]. split; [exact Hr|]. split; [reflexivity|].
  split; [reflexivity|].
  apply (stored_handler_reads_old_env Example.Rejection
           Example.isInsufficientFunds Example.mounted Example.env
           Example.degenerateEnv Example.ethereum Example.polygonHermez);
    [reflexivity | exact Hr | reflexivity].
Defined.
